(** * Road surface assessment: severity, recommendation and report

    A shallow embedding of the decision logic of [app.py]: the three helper
    functions [assess_severity], [recommendation] and [reconstruction_steps],
    the display loop over the detected boxes and the text report assembled
    after it.

    Python values are modelled as the code has them: a [float] is an IEEE 754
    binary64 value, a [str] is a byte string, a [dict] is a finite map, a
    subscript on a missing key raises [KeyError], and the Streamlit calls are
    recorded, in order, on the page they write to. *)

From Stdlib Require Import ZArith String Ascii List Lia DecimalString DecimalNat.
From Stdlib Require Import Floats.SpecFloat.
From stdpp Require Import gmap strings.

Local Open Scope string_scope.

(** ** Python floats *)

(** Precision and exponent bound of binary64. *)
Definition prec : Z := 53.
Definition emax : Z := 1024.

Definition float : Type := spec_float.

(** The values a Python float can hold are the well-formed binary64 ones. *)
Definition is_binary64 (x : float) : bool := valid_binary prec emax x.

(** A decimal literal [num/den] denotes the binary64 value nearest to it. *)
Definition float_of_Z (n : Z) : float := binary_normalize prec emax n 0 false.

Definition float_lit (num den : Z) : float :=
  SFdiv prec emax (float_of_Z num) (float_of_Z den).

(** The literals of [assess_severity], and the ends of the valid range. *)
Definition lit_0_40 : float := S754_finite false 7205759403792794 (-54).
Definition lit_0_70 : float := S754_finite false 6305039478318694 (-53).
Definition lit_0_3 : float := S754_finite false 5404319552844595 (-54).
Definition lit_0_6 : float := S754_finite false 5404319552844595 (-53).
Definition lit_0_9 : float := S754_finite false 8106479329266893 (-53).
Definition lit_0_0 : float := S754_zero false.
Definition lit_1_0 : float := S754_finite false 4503599627370496 (-52).
Definition float_inf : float := S754_infinity false.
Definition float_nan : float := S754_nan.

(** [a < b] and [a <= b] on floats; both are [False] when either is a NaN. *)
Definition float_lt (a b : float) : bool := SFltb a b.
Definition float_le (a b : float) : bool := SFleb a b.

(** ** Helper functions *)

(** [assess_severity(conf)]: the tuple (severity, css, score, explanation). *)
Definition assess_severity (conf : float) : string * string * float * string :=
  if float_lt conf lit_0_40 then
    ("Low", "low", lit_0_3,
     "Minor surface damage with no immediate safety risk.")
  else if float_lt conf lit_0_70 then
    ("Moderate", "moderate", lit_0_6,
     "Damage may worsen and affect ride quality.")
  else
    ("Severe", "severe", lit_0_9,
     "Critical damage posing serious safety risks.").

(** The first component of the tuple, as the display loop unpacks it. *)
Definition severity_of (conf : float) : string :=
  let '(severity, _, _, _) := assess_severity conf in severity.

(** The dictionaries of the helpers are keyed by strings; [d.get(k, dflt)]
    falls back to [dflt] and [d[k]] raises [KeyError] on a missing key. *)
Inductive exn : Type :=
| KeyError (key : string).

Inductive result (A : Type) : Type :=
| Ok (a : A)
| Raise (e : exn).

Arguments Ok {A} a.
Arguments Raise {A} e.

#[export] Instance result_ret : MRet result := fun A a => Ok a.

#[export] Instance result_bind : MBind result := fun A B f m =>
  match m with
  | Ok a => f a
  | Raise e => Raise e
  end.

Definition dict_get {V : Type} (d : gmap string V) (k : string) (dflt : V) : V :=
  match d !! k with
  | Some v => v
  | None => dflt
  end.

Definition dict_subscript {V : Type} (d : gmap string V) (k : string) : result V :=
  match d !! k with
  | Some v => Ok v
  | None => Raise (KeyError k)
  end.

(** [recommendation(label, severity)] *)
Definition actions : gmap string (gmap string string) :=
  {[ "crack" :=
       {[ "Low" := "Seal cracks to prevent water penetration.";
          "Moderate" := "Crack filling followed by surface overlay.";
          "Severe" := "Immediate resurfacing required." ]};
     "pothole" :=
       {[ "Low" := "Temporary patch repair recommended.";
          "Moderate" := "Permanent patch repair with compaction.";
          "Severe" := "Urgent full-depth reconstruction required." ]};
     "manhole" :=
       {[ "Low" := "Routine inspection advised.";
          "Moderate" := "Level adjustment and reinforcement needed.";
          "Severe" := "Immediate structural correction required." ]} ]}.

Definition recommendation (label severity : string) : string :=
  dict_get (dict_get actions label ∅) severity
    "Standard maintenance recommended.".

(** [reconstruction_steps(severity)]: the three Markdown texts, each line
    ending in the two spaces of a Markdown line break. *)
Definition steps_low : string := "
**Reconstruction Process (Low Severity)**  
1. Visual inspection  
2. Cleaning debris  
3. Crack sealing / minor patching  
4. Periodic monitoring  
".

Definition steps_moderate : string := "
**Reconstruction Process (Moderate Severity)**  
1. Detailed site inspection  
2. Marking damaged zones  
3. Crack filling / patch repair  
4. Surface overlay  
5. Compaction and leveling  
".

Definition steps_severe : string := "
**Reconstruction Process (Severe Severity)**  
1. Traffic diversion and safety barricades  
2. Removal of damaged layers  
3. Structural base repair  
4. Full resurfacing  
5. Quality and load inspection  
".

Definition steps_table : gmap string string :=
  {[ "Low" := steps_low; "Moderate" := steps_moderate; "Severe" := steps_severe ]}.

Definition reconstruction_steps (severity : string) : result string :=
  dict_subscript steps_table severity.

(** The labels and tiers the tables are keyed by. *)
Definition known_labels : list string := ["crack"; "pothole"; "manhole"].
Definition tiers : list string := ["Low"; "Moderate"; "Severe"].

(** ** Reading a Markdown text *)

Definition nl : string := String "010"%char "".
Definition dq : string := String "034"%char "".

(** The lines of a text, as [text.split("\n")] gives them. *)
Fixpoint split_lines (s : string) : list string :=
  match s with
  | EmptyString => [EmptyString]
  | String c rest =>
      if Ascii.eqb c "010"%char then EmptyString :: split_lines rest
      else match split_lines rest with
           | [] => [String c EmptyString]
           | l :: ls => String c l :: ls
           end
  end.

Definition is_digit (c : ascii) : bool :=
  (48 <=? nat_of_ascii c)%nat && (nat_of_ascii c <=? 57)%nat.

(** A line is an item of an ordered list when it starts with a digit. *)
Definition is_list_item (line : string) : bool :=
  match line with
  | String c _ => is_digit c
  | EmptyString => false
  end.

Definition ordered_items (text : string) : list string :=
  List.filter is_list_item (split_lines text).

(** The ordered steps of the plan [reconstruction_steps] gives for a tier. *)
Definition plan_steps (severity : string) : result (list string) :=
  steps ← reconstruction_steps severity; mret (ordered_items steps).

(** ** The display of the results *)

(** One detected box, as the loop reads it: [label] is
    [model.names[int(box.cls[0])]] and [conf] is [float(box.conf[0])]. *)
Record Detection : Type := mkDetection {
  label : string;
  conf : float
}.

(** The Streamlit calls of the display, in the order they are made. *)
#[warnings="-register-all"]
Inductive widget : Type :=
| st_success (body : string)
| st_image (caption : string)
| st_subheader (body : string)
| st_markdown (body : string) (unsafe_allow_html : bool)
| st_write (body : string)
| st_progress (value : float)
| st_expander (title : string) (children : list widget)
| st_download_button (title data file_name : string).

(** What the display section mutates: the local list [issues] and the page. *)
Record state : Type := mkState {
  issues : list string;
  page : list widget
}.

Definition append_issue (s : string) (st : state) : state :=
  {| issues := issues st ++ [s]; page := page st |}.

Definition emit (w : widget) (st : state) : state :=
  {| issues := issues st; page := page st ++ [w] |}.

(** [str(n)] for a non-negative [int]. *)
Definition str_of_nat (n : nat) : string :=
  NilZero.string_of_uint (Nat.to_uint n).

Section Display.

(** Built-ins of the interpreter: [str.upper] and the [.2f] format. *)
Variable upper : string -> string.
Variable format_2f : float -> string.

(** The f-string appended to [issues]. *)
Definition issue_text (lbl severity explanation action : string) : string :=
  upper lbl +:+ " | Severity: " +:+ severity +:+ nl +:+
  "Condition: " +:+ explanation +:+ nl +:+
  "Action: " +:+ action.

(** The f-string passed to [st.markdown]; [i] is the index of [enumerate]. *)
Definition damage_card (i : nat) (lbl : string) (cnf : float)
    (css severity explanation action : string) : string :=
  "
            <div class=" +:+ dq +:+ "report-box" +:+ dq +:+ ">
            <b>Damage " +:+ str_of_nat (i + 1) +:+ "</b><br>
            <b>Type:</b> " +:+ upper lbl +:+ "<br>
            <b>Confidence:</b> " +:+ format_2f cnf +:+ "<br>
            <b>Severity:</b> <span class=" +:+ dq +:+ css +:+ dq +:+ ">" +:+ severity +:+ "</span><br>
            <b>Condition:</b> " +:+ explanation +:+ "<br>
            <b>Recommended Action:</b> " +:+ action +:+ "
            </div>
            ".

Definition expander_title (i : nat) : string :=
  "🛠 Reconstruction Details – Damage " +:+ str_of_nat (i + 1).

(** The body of [for i, box in enumerate(boxes)]. *)
Definition loop_body (i : nat) (box : Detection) (st : state) : result state :=
  let '(severity, css, score, explanation) := assess_severity (conf box) in
  let action := recommendation (label box) severity in
  let st := append_issue (issue_text (label box) severity explanation action) st in
  let st := emit (st_markdown
                    (damage_card i (label box) (conf box) css severity explanation action)
                    true) st in
  let st := emit (st_write "**Severity Level**") st in
  let st := emit (st_progress score) st in
  steps ← reconstruction_steps severity;
  mret (emit (st_expander (expander_title i) [st_markdown steps false]) st).

Fixpoint for_enumerate (i : nat) (boxes : list Detection) (st : state)
    : result state :=
  match boxes with
  | [] => mret st
  | box :: rest => st' ← loop_body i box st; for_enumerate (S i) rest st'
  end.

(** The f-string of the report, then the report itself. *)
Definition report_head (now : string) : string :=
  "
ROAD CONDITION ANALYSIS REPORT
------------------------------
Date & Time: " +:+ now +:+ "

Detected Issues:
----------------
".

Definition report_text (now : string) (issues : list string) : string :=
  report_head now +:+ String.concat (nl +:+ nl) issues.

(** The section under [if st.session_state.analysis_done]: [boxes] is
    [results[0].boxes], which may be [None], and [now] is what
    [datetime.now()] formats to. It gives the page and the report stored in
    the session state. *)
Definition display_results (now : string) (boxes : option (list Detection))
    : result (list widget * string) :=
  let st := {| issues := []; page := [] |} in
  let st := emit (st_success "✅ Analysis Complete") st in
  let st := emit (st_image "Detected Road Defects") st in
  let st := emit (st_subheader "🧠 Detailed Damage Assessment") st in
  st ← match boxes with
       | Some bs =>
           if (0 <? length bs)%nat then for_enumerate 0 bs st
           else mret (emit (st_success "✅ No road damage detected.") st)
       | None => mret (emit (st_success "✅ No road damage detected.") st)
       end;
  let text := report_text now (issues st) in
  let st := emit (st_download_button "⬇ Download Final Analysis Report" text
                    "road_surface_analysis_report.txt") st in
  mret (page st, text).

(** What one detection contributes: its entry in [issues], its card and
    the widgets it adds to the page. *)
Definition is_damage_card (w : widget) : bool :=
  match w with
  | st_markdown _ true => true
  | _ => false
  end.

Definition detection_issue (d : Detection) : string :=
  let '(severity, _, _, explanation) := assess_severity (conf d) in
  issue_text (label d) severity explanation (recommendation (label d) severity).

Definition detection_card (i : nat) (d : Detection) : string :=
  let '(severity, css, _, explanation) := assess_severity (conf d) in
  damage_card i (label d) (conf d) css severity explanation
    (recommendation (label d) severity).

Definition detection_widgets (i : nat) (d : Detection) : list widget :=
  let '(severity, _, score, _) := assess_severity (conf d) in
  [ st_markdown (detection_card i d) true;
    st_write "**Severity Level**";
    st_progress score ] ++
  match reconstruction_steps severity with
  | Ok steps => [st_expander (expander_title i) [st_markdown steps false]]
  | Raise _ => []
  end.

(** The page around the detections. *)
Definition page_top : list widget :=
  [ st_success "✅ Analysis Complete";
    st_image "Detected Road Defects";
    st_subheader "🧠 Detailed Damage Assessment" ].

Definition page_bottom (text : string) : list widget :=
  [ st_download_button "⬇ Download Final Analysis Report" text
      "road_surface_analysis_report.txt" ].

(** The report as the specification lays it out: the header line, a rule,
    the date line, a blank line, the issues heading and its rule, then the
    blocks separated by blank lines. *)
Definition spec_block (lbl tier explanation action : string) : string :=
  upper lbl +:+ " | Severity: " +:+ tier +:+ nl +:+
  "Condition: " +:+ explanation +:+ nl +:+
  "Action: " +:+ action.

Definition spec_detection_block (d : Detection) : string :=
  let '(tier, _, _, explanation) := assess_severity (conf d) in
  spec_block (label d) tier explanation (recommendation (label d) tier).

Definition spec_report (now : string) (blocks : list string) : string :=
  "ROAD CONDITION ANALYSIS REPORT" +:+ nl +:+
  "------------------------------" +:+ nl +:+
  "Date & Time: " +:+ now +:+ nl +:+
  nl +:+
  "Detected Issues:" +:+ nl +:+
  "----------------" +:+ nl +:+
  String.concat (nl +:+ nl) blocks.

End Display.

(** The report a run leaves in the session state, when it completes. *)
Definition report_of (r : result (list widget * string)) : option string :=
  match r with
  | Ok (_, text) => Some text
  | Raise _ => None
  end.

Definition page_of (r : result (list widget * string)) : option (list widget) :=
  match r with
  | Ok (pg, _) => Some pg
  | Raise _ => None
  end.

(** ** Instances of the built-ins, for running the display *)

(** [str.upper] on ASCII text. *)
Definition ascii_upper_char (c : ascii) : ascii :=
  let n := nat_of_ascii c in
  if (97 <=? n)%nat && (n <=? 122)%nat then ascii_of_nat (n - 32) else c.

Fixpoint ascii_upper (s : string) : string :=
  match s with
  | EmptyString => EmptyString
  | String c rest => String (ascii_upper_char c) (ascii_upper rest)
  end.

(** The [.2f] format: the value rounded to two decimals, ties to even. *)
Definition round_half_even (num den : Z) : Z :=
  let q := (num / den)%Z in
  match (2 * (num mod den) ?= den)%Z with
  | Lt => q
  | Gt => (q + 1)%Z
  | Eq => if Z.even q then q else (q + 1)%Z
  end.

Definition str_of_Z (n : Z) : string := str_of_nat (Z.to_nat n).

Definition hundredths (m : positive) (e : Z) : Z :=
  if (0 <=? e)%Z then (Zpos m * 2 ^ e * 100)%Z
  else round_half_even (Zpos m * 100) (2 ^ (- e)).

Definition fixed_2f (x : float) : string :=
  match x with
  | S754_zero s => (if s then "-" else "") +:+ "0.00"
  | S754_infinity s => (if s then "-" else "") +:+ "inf"
  | S754_nan => "nan"
  | S754_finite s m e =>
      let n := hundredths m e in
      (if s then "-" else "") +:+ str_of_Z (n / 100) +:+ "." +:+
      (if (n mod 100 <? 10)%Z then "0" else "") +:+ str_of_Z (n mod 100)
  end.

(** A run on two detections, used in the examples below. *)
Definition lit_0_85 : float := S754_finite false 7656119366529843 (-53).
Definition lit_0_25 : float := S754_finite false 4503599627370496 (-54).
Definition lit_0_55 : float := S754_finite false 4953959590107546 (-53).

Definition sample_now : string := "2024-05-17 10:42:03.118250".

Definition sample_boxes : list Detection :=
  [ mkDetection "pothole" lit_0_85; mkDetection "crack" lit_0_25 ].

(** ** The script as a whole *)

(** The exceptions of the libraries the script calls; [msg] is what the
    exception formats to in an f-string. *)
Inductive lib_error : Type :=
| UnidentifiedImageError (msg : string)
| OtherException (msg : string).

Definition str_of_error (e : lib_error) : string :=
  match e with
  | UnidentifiedImageError msg => msg
  | OtherException msg => msg
  end.

Inductive outcome (A : Type) : Type :=
| Returns (a : A)
| Throws (e : lib_error).

Arguments Returns {A} _.
Arguments Throws {A} _.

(** An exception that nothing in the script catches. *)
Inductive crash : Type :=
| AttributeError (name : string)
| TypeError
| IndexError
| Uncaught (e : exn).

(** How a run of the script ends: at its last line, at [st.stop()], or on an
    exception that is not caught. *)
Inductive status : Type :=
| Finished
| Stopped
| Crashed (c : crash).

(** The Streamlit calls of the whole script: those of the display, and the
    ones made only outside it. *)
Inductive element : Type :=
| shown (w : widget)
| st_set_page_config (page_title layout : string)
| st_title (body : string)
| st_error (body : string)
| st_file_uploader (title : string) (type : list string)
| st_button (title : string)
| st_spinner (text : string).

Definition page_css : string := "
<style>
.stApp {
    background: linear-gradient(135deg, #e3f2fd, #e8f5e9);
}
.block-container {
    background-color: #ffffff;
    padding: 2.5rem;
    border-radius: 22px;
    box-shadow: 0px 12px 30px rgba(0,0,0,0.12);
}
h1 { color: #0d47a1; text-align: center; }
h2, h3 { color: #1b5e20; }
.low { color: #2e7d32; font-weight: bold; }
.moderate { color: #ef6c00; font-weight: bold; }
.severe { color: #c62828; font-weight: bold; }
.report-box {
    background-color: #f1f8ff;
    padding: 18px;
    border-radius: 15px;
    margin-top: 20px;
}
footer { visibility: hidden; }
</style>
".

Definition page_intro : string := "
An **AI-powered decision support system** that detects road surface defects,  
evaluates severity, and provides **reconstruction & maintenance guidance**.
".

Definition page_footer : string :=
  "<center><small>AI-based Road Monitoring & Decision Support System | Internship Project</small></center>".

Section Script.

(** What the libraries hand to the script: the loaded model, an uploaded
    file, a decoded image and the result list of one inference. *)
Variables Model File Image Results : Type.

(** [results[0].boxes], each box read as the display loop reads it. *)
Variable boxes_of : Results -> option (list Detection).

Variable upper : string -> string.
Variable format_2f : float -> string.

(** The values the script keeps in [st.session_state]. *)
Inductive value : Type :=
| VBool (b : bool)
| VNone
| VStr (s : string)
| VResults (r : Results)
| VImage (img : Image).

(** What one run of the script gets from outside: the outcome of
    [YOLO("best.pt")], the uploaded file if there is one, the outcome of
    opening, converting and shrinking it, whether the button was pressed, the
    outcome of saving the image and running the model on it, the outcome of
    plotting the results, and the time of the report. *)
Record world : Type := mkWorld {
  yolo_load : outcome Model;
  uploaded_file : option File;
  image_open : File -> outcome Image;
  button_pressed : bool;
  yolo_infer : Model -> Image -> outcome Results;
  results_plot : Results -> outcome Image;
  clock : string
}.

(** The session state and the page, as a run mutates them. *)
Record run_state : Type := mkRun {
  session : gmap string value;
  rendered : list element
}.

Definition render (e : element) (st : run_state) : run_state :=
  {| session := session st; rendered := rendered st ++ [e] |}.

Definition assign (k : string) (v : value) (st : run_state) : run_state :=
  {| session := <[k := v]> (session st); rendered := rendered st |}.

(** [if k not in st.session_state: st.session_state.k = v] *)
Definition init_key (k : string) (v : value) (ss : gmap string value)
    : gmap string value :=
  match ss !! k with
  | Some _ => ss
  | None => <[k := v]> ss
  end.

Definition init_session (ss : gmap string value) : gmap string value :=
  let ss := init_key "analysis_done" (VBool false) ss in
  let ss := init_key "results" VNone ss in
  let ss := init_key "annotated" VNone ss in
  init_key "report_text" (VStr "") ss.

(** [load_model()]: the model, or [None] after reporting the exception. *)
Definition load_model (w : world) (st : run_state) : option Model * run_state :=
  match yolo_load w with
  | Returns m => (Some m, st)
  | Throws e =>
      (None, render (st_error ("Error loading model: " +:+ str_of_error e)) st)
  end.

(** The body of [with st.spinner(...)]: the inner [try] and its handler. *)
Definition analyze (w : world) (m : Model) (image : Image) (st : run_state)
    : run_state :=
  let st := render (st_spinner "Running intelligent analysis...") st in
  match yolo_infer w m image with
  | Throws e =>
      render (st_error ("Error during analysis: " +:+ str_of_error e)) st
  | Returns results =>
      let st := assign "results" (VResults results) st in
      match results_plot w results with
      | Throws e =>
          render (st_error ("Error during analysis: " +:+ str_of_error e)) st
      | Returns annotated =>
          let st := assign "annotated" (VImage annotated) st in
          assign "analysis_done" (VBool true) st
      end
  end.

(** The section under [if uploaded_file:], with its two handlers. *)
Definition upload_section (w : world) (model : option Model) (st : run_state)
    : run_state :=
  let st := render (st_file_uploader "📤 Upload a road surface image"
                      ["jpg"; "jpeg"; "png"]) st in
  match uploaded_file w with
  | None => st
  | Some f =>
      match image_open w f with
      | Throws (UnidentifiedImageError _) =>
          render (st_error
            "⚠️ Uploaded file is not a valid image. Please upload JPG, JPEG, or PNG.") st
      | Throws (OtherException msg) =>
          render (st_error ("Unexpected error: " +:+ msg)) st
      | Returns image =>
          let st := render (shown (st_image "Uploaded Image")) st in
          let st := render (st_button "🔍 Analyze Road Condition") st in
          if button_pressed w then
            match model with
            | None => render (st_error "Model not loaded.") st
            | Some m => analyze w m image st
            end
          else st
      end
  end.

(** Truth value of a session value in an [if]. *)
Definition truthy (v : value) : bool :=
  match v with
  | VBool b => b
  | VNone => false
  | VStr s => negb (String.eqb s "")
  | VResults _ => true
  | VImage _ => true
  end.

(** [st.session_state.k]: a missing key raises [AttributeError]. *)
Definition read (k : string) (ss : gmap string value) : crash + value :=
  match ss !! k with
  | Some v => inr v
  | None => inl (AttributeError k)
  end.

(** [v[0].boxes] *)
Definition first_boxes (v : value) : crash + option (list Detection) :=
  match v with
  | VResults r => inr (boxes_of r)
  | VStr EmptyString => inl IndexError
  | VStr (String _ _) => inl (AttributeError "boxes")
  | VBool _ | VNone | VImage _ => inl TypeError
  end.

(** The section under [if st.session_state.analysis_done:]. A run that
    crashes is given with the state the section started from. *)
Definition display_section (w : world) (st : run_state) : run_state * status :=
  match read "analysis_done" (session st) with
  | inl c => (st, Crashed c)
  | inr done =>
      if truthy done then
        match read "annotated" (session st) with
        | inl c => (st, Crashed c)
        | inr _ =>
            match read "results" (session st) with
            | inl c => (st, Crashed c)
            | inr v =>
                match first_boxes v with
                | inl c => (st, Crashed c)
                | inr boxes =>
                    match display_results upper format_2f (clock w) boxes with
                    | Raise e => (st, Crashed (Uncaught e))
                    | Ok (pg, text) =>
                        ({| session := <["report_text" := VStr text]> (session st);
                            rendered := rendered st ++ (shown <$> pg) |}, Finished)
                    end
                end
            end
        end
      else (st, Finished)
  end.

Definition page_header : list element :=
  [ st_set_page_config "Intelligent Road Surface Quality Assessment" "centered";
    shown (st_markdown page_css true);
    st_title "🚧 Intelligent Road Surface Quality Assessment System";
    shown (st_write page_intro) ].

Definition page_end : list element :=
  [ shown (st_markdown "---" false);
    shown (st_markdown page_footer true) ].

(** One run of the script on the session state [ss]. *)
Definition script (w : world) (ss : gmap string value) : run_state * status :=
  let st := {| session := init_session ss; rendered := page_header |} in
  let '(model, st) := load_model w st in
  match model with
  | None => (st, Stopped)
  | Some _ =>
      let st := upload_section w model st in
      match display_section w st with
      | (st, Finished) =>
          ({| session := session st; rendered := rendered st ++ page_end |}, Finished)
      | (st, s) => (st, s)
      end
  end.

(** The session state after a sequence of runs; it outlives each of them. *)
Fixpoint reruns (ws : list world) (ss : gmap string value) : gmap string value :=
  match ws with
  | [] => ss
  | w :: rest => reruns rest (session (script w ss).1)
  end.

(** The session state the script relies on: the four keys hold values of
    the kind the script stores there, and once the analysis is done the
    results and the annotated image are there. *)
Definition session_ok (ss : gmap string value) : Prop :=
  exists (b : bool) (res ann : value) (text : string),
    ss !! "analysis_done" = Some (VBool b) /\
    ss !! "results" = Some res /\
    ss !! "annotated" = Some ann /\
    ss !! "report_text" = Some (VStr text) /\
    (res = VNone \/ exists r, res = VResults r) /\
    (ann = VNone \/ exists img, ann = VImage img) /\
    (b = true -> (exists r, res = VResults r) /\ (exists img, ann = VImage img)).

Definition is_error (e : element) : bool :=
  match e with
  | st_error _ => true
  | _ => false
  end.

(** The three things the upload section can do to the session state. *)
Definition upload_outcome (st st' : run_state) : Prop :=
  session st' = session st \/
  (exists r : Results, session st' = <["results" := VResults r]> (session st)) \/
  (exists (r : Results) (a : Image),
     session st' =
     <["analysis_done" := VBool true]>
       (<["annotated" := VImage a]> (<["results" := VResults r]> (session st)))).

(** The keys the script keeps in the session state. *)
Definition session_keys : list string :=
  ["analysis_done"; "results"; "annotated"; "report_text"].

(** The same run with nothing uploaded. *)
Definition without_upload (w : world) : world :=
  {| yolo_load := yolo_load w;
     uploaded_file := None;
     image_open := image_open w;
     button_pressed := button_pressed w;
     yolo_infer := yolo_infer w;
     results_plot := results_plot w;
     clock := clock w |}.

End Script.

Arguments VBool {Image Results} _.
Arguments VNone {Image Results}.
Arguments VStr {Image Results} _.
Arguments VResults {Image Results} _.
Arguments VImage {Image Results} _.
Arguments mkWorld {Model File Image Results}.
Arguments yolo_load {Model File Image Results} _.
Arguments uploaded_file {Model File Image Results} _.
Arguments image_open {Model File Image Results} _ _.
Arguments button_pressed {Model File Image Results} _.
Arguments yolo_infer {Model File Image Results} _ _ _.
Arguments results_plot {Model File Image Results} _ _.
Arguments clock {Model File Image Results} _.
Arguments mkRun {Image Results}.
Arguments session {Image Results} _.
Arguments rendered {Image Results} _.
Arguments render {Image Results} _ _.
Arguments assign {Image Results} _ _ _.
Arguments init_key {Image Results} _ _ _.
Arguments init_session {Image Results} _.
Arguments load_model {Model File Image Results} _ _.
Arguments analyze {Model File Image Results} _ _ _ _.
Arguments upload_section {Model File Image Results} _ _ _.
Arguments truthy {Image Results} _.
Arguments read {Image Results} _ _.
Arguments first_boxes {Image Results} _ _.
Arguments display_section {Model File Image Results} _ _ _ _ _.
Arguments script {Model File Image Results} _ _ _ _ _.
Arguments reruns {Model File Image Results} _ _ _ _ _.
Arguments session_ok {Image Results} _.
Arguments without_upload {Model File Image Results} _.
Arguments upload_outcome {Image Results} _ _.

(** A run of the script, for the examples: the file decodes to image 1, the
    model finds the two sample boxes and the plot is image 2. *)
Definition sample_world : world unit string nat (list Detection) :=
  {| yolo_load := Returns tt;
     uploaded_file := Some "road.jpg";
     image_open := fun _ => Returns 1%nat;
     button_pressed := true;
     yolo_infer := fun _ _ => Returns sample_boxes;
     results_plot := fun _ => Returns 2%nat;
     clock := sample_now |}.

Definition sample_world_infer_fails : world unit string nat (list Detection) :=
  {| yolo_load := Returns tt;
     uploaded_file := Some "road.jpg";
     image_open := fun _ => Returns 1%nat;
     button_pressed := true;
     yolo_infer := fun _ _ => Throws (OtherException "CUDA out of memory");
     results_plot := fun _ => Returns 2%nat;
     clock := sample_now |}.

Definition sample_world_plot_fails : world unit string nat (list Detection) :=
  {| yolo_load := Returns tt;
     uploaded_file := Some "road.jpg";
     image_open := fun _ => Returns 1%nat;
     button_pressed := true;
     yolo_infer := fun _ _ => Returns sample_boxes;
     results_plot := fun _ => Throws (OtherException "cannot plot");
     clock := sample_now |}.

Definition sample_world_no_model : world unit string nat (list Detection) :=
  {| yolo_load := Throws (OtherException "best.pt not found");
     uploaded_file := Some "road.jpg";
     image_open := fun _ => Returns 1%nat;
     button_pressed := true;
     yolo_infer := fun _ _ => Returns sample_boxes;
     results_plot := fun _ => Returns 2%nat;
     clock := sample_now |}.

Definition sample_session : gmap string (value nat (list Detection)) :=
  {[ "analysis_done" := VBool true;
     "results" := VResults [mkDetection "manhole" lit_0_55];
     "annotated" := VImage 9%nat;
     "report_text" := VStr "" ]}.

Definition run_sample (w : world unit string nat (list Detection))
    (ss : gmap string (value nat (list Detection)))
    : run_state nat (list Detection) * status :=
  script Some ascii_upper fixed_2f w ss.

(** ** Reading back a block label, and the rank of a tier *)

Definition nat_of_str (s : string) : option nat :=
  Nat.of_uint <$> NilZero.uint_of_string s.

Definition tier_rank (tier : string) : nat :=
  if String.eqb tier "Low" then 0
  else if String.eqb tier "Moderate" then 1
  else 2.

Definition score_of (conf : float) : float :=
  let '(_, _, score, _) := assess_severity conf in score.

(** * Properties *)

(** ** The order on floats *)

Section FloatOrder.

Implicit Types a b c : float.

Ltac order_cases :=
  repeat match goal with
    | |- context [(?x ?= ?y)%Z] => destruct (Z.compare_spec x y)
    | |- context [Pos.compare_cont Eq ?x ?y] =>
        change (Pos.compare_cont Eq x y) with (x ?= y)%positive;
        destruct (Pos.compare_spec x y)
    end;
  simpl; intros; subst; try congruence; try lia.

Lemma SFcompare_flip a b x :
  SFcompare a b = Some x -> SFcompare b a = Some (CompOpp x).
Proof.
  destruct a as [[]|[]| |[] ma ea], b as [[]|[]| |[] mb eb]; simpl;
    try (intros [= <-]; reflexivity); try discriminate;
    intros [= <-]; f_equal; order_cases.
Qed.

Lemma SFcompare_defined a b :
  a <> S754_nan -> b <> S754_nan -> exists x, SFcompare a b = Some x.
Proof.
  destruct a as [[]|[]| |[] ma ea], b as [[]|[]| |[] mb eb]; simpl;
    intros; try congruence; eauto.
Qed.

Lemma SFltb_trans a b c :
  SFltb a b = true -> SFltb b c = true -> SFltb a c = true.
Proof.
  unfold SFltb.
  destruct a as [[]|[]| |[] ma ea], b as [[]|[]| |[] mb eb],
    c as [[]|[]| |[] mc ec]; simpl; try congruence; order_cases.
Qed.

Lemma SFleb_ltb_trans a b c :
  SFleb a b = true -> SFltb b c = true -> SFltb a c = true.
Proof.
  unfold SFleb, SFltb.
  destruct a as [[]|[]| |[] ma ea], b as [[]|[]| |[] mb eb],
    c as [[]|[]| |[] mc ec]; simpl; try congruence; order_cases.
Qed.

Lemma float_lt_not_le a b : float_lt a b = true -> float_le b a = false.
Proof.
  unfold float_lt, float_le, SFltb, SFleb.
  destruct (SFcompare a b) as [[]|] eqn:E; try discriminate.
  intros _. rewrite (SFcompare_flip _ _ _ E). reflexivity.
Qed.

Lemma float_le_not_lt a b : float_le a b = true -> float_lt b a = false.
Proof.
  unfold float_lt, float_le, SFltb, SFleb.
  destruct (SFcompare a b) as [[]|] eqn:E; try discriminate;
    intros _; rewrite (SFcompare_flip _ _ _ E); reflexivity.
Qed.

Lemma float_le_not_nan_r a b : float_le a b = true -> b <> S754_nan.
Proof.
  intros H ->. unfold float_le, SFleb in H.
  destruct a as [[]|[]| |[] ma ea]; discriminate.
Qed.

Lemma float_not_lt_le a b :
  a <> S754_nan -> b <> S754_nan -> float_lt a b = false -> float_le b a = true.
Proof.
  intros Ha Hb. unfold float_lt, float_le, SFltb, SFleb.
  destruct (SFcompare_defined a b Ha Hb) as [x E].
  rewrite E, (SFcompare_flip _ _ _ E).
  destruct x; simpl; congruence.
Qed.

End FloatOrder.

(** ** The literals *)

(** Every literal is the binary64 value nearest to the decimal it is written
    as, and is a well-formed binary64 value. *)
Lemma literals_rounded :
  lit_0_40 = float_lit 40 100 /\ lit_0_70 = float_lit 70 100 /\
  lit_0_3 = float_lit 3 10 /\ lit_0_6 = float_lit 6 10 /\
  lit_0_9 = float_lit 9 10 /\ lit_1_0 = float_lit 1 1.
Proof. vm_compute. repeat split. Qed.

Lemma literals_binary64 :
  forallb is_binary64
    [lit_0_40; lit_0_70; lit_0_3; lit_0_6; lit_0_9; lit_0_0; lit_1_0] = true.
Proof. vm_compute. reflexivity. Qed.

(** Python writes the scores [0.3] and [0.30] as one and the same float. *)
Lemma score_spelling :
  float_lit 30 100 = lit_0_3 /\ float_lit 60 100 = lit_0_6 /\
  float_lit 90 100 = lit_0_9.
Proof. vm_compute. repeat split. Qed.

(** ** The severity classifier *)

Lemma assess_low c :
  float_lt c lit_0_40 = true ->
  assess_severity c =
    ("Low", "low", lit_0_3, "Minor surface damage with no immediate safety risk.").
Proof. intros H. unfold assess_severity. rewrite H. reflexivity. Qed.

Lemma assess_moderate c :
  float_lt c lit_0_40 = false -> float_lt c lit_0_70 = true ->
  assess_severity c =
    ("Moderate", "moderate", lit_0_6, "Damage may worsen and affect ride quality.").
Proof. intros H1 H2. unfold assess_severity. rewrite H1, H2. reflexivity. Qed.

Lemma assess_severe c :
  float_lt c lit_0_70 = false ->
  assess_severity c =
    ("Severe", "severe", lit_0_9, "Critical damage posing serious safety risks.").
Proof.
  intros H. unfold assess_severity.
  destruct (float_lt c lit_0_40) eqn:E; [|rewrite H; reflexivity].
  assert (float_lt c lit_0_70 = true) as H'
    by (apply (SFltb_trans c lit_0_40 lit_0_70); [exact E | reflexivity]).
  congruence.
Qed.

(** The three branches, read off the severity alone. *)
Lemma severity_of_cases c :
  (severity_of c = "Low" /\ float_lt c lit_0_40 = true) \/
  (severity_of c = "Moderate" /\
     float_lt c lit_0_40 = false /\ float_lt c lit_0_70 = true) \/
  (severity_of c = "Severe" /\
     float_lt c lit_0_40 = false /\ float_lt c lit_0_70 = false).
Proof.
  unfold severity_of, assess_severity.
  destruct (float_lt c lit_0_40), (float_lt c lit_0_70); auto 10.
Qed.

(** C1. [assess_severity] returns the tuple fixed by the thresholds: below
    0.40 the Low tuple, from 0.40 and below 0.70 the Moderate tuple, from 0.70
    the Severe tuple; 0.40 itself is Moderate, 0.70 itself is Severe, 0.0 is
    Low and 1.0 is Severe. *)
Theorem assess_severity_thresholds :
  (forall c, float_lt c lit_0_40 = true ->
     assess_severity c =
       ("Low", "low", lit_0_3,
        "Minor surface damage with no immediate safety risk.")) /\
  (forall c, float_le lit_0_40 c = true -> float_lt c lit_0_70 = true ->
     assess_severity c =
       ("Moderate", "moderate", lit_0_6,
        "Damage may worsen and affect ride quality.")) /\
  (forall c, float_le lit_0_70 c = true ->
     assess_severity c =
       ("Severe", "severe", lit_0_9,
        "Critical damage posing serious safety risks.")) /\
  assess_severity lit_0_40 =
    ("Moderate", "moderate", lit_0_6,
     "Damage may worsen and affect ride quality.") /\
  assess_severity lit_0_70 =
    ("Severe", "severe", lit_0_9,
     "Critical damage posing serious safety risks.") /\
  assess_severity lit_0_0 =
    ("Low", "low", lit_0_3,
     "Minor surface damage with no immediate safety risk.") /\
  assess_severity lit_1_0 =
    ("Severe", "severe", lit_0_9,
     "Critical damage posing serious safety risks.").
Proof.
  split; [exact assess_low|].
  split.
  { intros c Hge Hlt. apply assess_moderate; [|exact Hlt].
    apply float_le_not_lt. exact Hge. }
  split.
  { intros c Hge. apply assess_severe. apply float_le_not_lt. exact Hge. }
  repeat split.
Qed.

Lemma assess_severity_thresholds_witness :
  assess_severity lit_0_25 =
    ("Low", "low", lit_0_3,
     "Minor surface damage with no immediate safety risk.") /\
  assess_severity lit_0_55 =
    ("Moderate", "moderate", lit_0_6,
     "Damage may worsen and affect ride quality.") /\
  assess_severity lit_0_85 =
    ("Severe", "severe", lit_0_9,
     "Critical damage posing serious safety risks.").
Proof.
  destruct assess_severity_thresholds as (Hlow & Hmod & Hsev & _).
  split; [apply Hlow; reflexivity|].
  split; [apply Hmod; reflexivity | apply Hsev; reflexivity].
Defined.

(** C2. On the interval from 0 to 1 the severity is one of the three tiers,
    and each tier is taken exactly on one half-open interval: Low from 0 up to
    0.40, Moderate from 0.40 up to 0.70, Severe from 0.70 on; each interval
    starts where the one before it ends. *)
Theorem severity_partition (c : float) :
  float_le lit_0_0 c = true -> float_le c lit_1_0 = true ->
  severity_of c ∈ tiers /\
  (severity_of c = "Low" <->
     float_le lit_0_0 c = true /\ float_lt c lit_0_40 = true) /\
  (severity_of c = "Moderate" <->
     float_le lit_0_40 c = true /\ float_lt c lit_0_70 = true) /\
  (severity_of c = "Severe" <->
     float_le lit_0_70 c = true /\ float_lt c float_inf = true).
Proof.
  intros H0 H1.
  assert (c <> S754_nan) as Hc by exact (float_le_not_nan_r _ _ H0).
  assert (float_lt c float_inf = true) as Hinf
    by (apply (SFleb_ltb_trans c lit_1_0 float_inf); [exact H1 | reflexivity]).
  assert (forall a, a <> S754_nan -> float_lt c a = false -> float_le a c = true)
    as Hge by (intros a Ha; apply float_not_lt_le; assumption).
  assert (forall a, float_le a c = true -> float_lt c a = false)
    as Hnlt by (intros a; apply float_le_not_lt).
  destruct (severity_of_cases c) as [(E & L1) | [(E & L1 & L2) | (E & L1 & L2)]];
    rewrite E.
  - split; [unfold tiers; set_solver|].
    split; [tauto|].
    split; (split; [discriminate|]); intros [G _]; apply Hnlt in G.
    + congruence.
    + assert (float_lt c lit_0_70 = true)
        by (apply (SFltb_trans c lit_0_40 lit_0_70); [exact L1 | reflexivity]).
      congruence.
  - split; [unfold tiers; set_solver|].
    split; [split; [discriminate | intros [_ G]; congruence]|].
    split.
    + split; [intros _|tauto]. split; [|exact L2].
      apply Hge; [discriminate | exact L1].
    + split; [discriminate|]. intros [G _]. apply Hnlt in G. congruence.
  - split; [unfold tiers; set_solver|].
    split; [split; [discriminate | intros [_ G]; congruence]|].
    split; [split; [discriminate | intros [_ G]; congruence]|].
    split; [intros _|tauto]. split; [|exact Hinf].
    apply Hge; [discriminate | exact L2].
Qed.

Lemma severity_partition_witness :
  severity_of lit_0_55 ∈ tiers /\
  (severity_of lit_0_55 = "Low" <->
     float_le lit_0_0 lit_0_55 = true /\ float_lt lit_0_55 lit_0_40 = true) /\
  (severity_of lit_0_55 = "Moderate" <->
     float_le lit_0_40 lit_0_55 = true /\ float_lt lit_0_55 lit_0_70 = true) /\
  (severity_of lit_0_55 = "Severe" <->
     float_le lit_0_70 lit_0_55 = true /\ float_lt lit_0_55 float_inf = true).
Proof. apply (severity_partition lit_0_55); reflexivity. Defined.

(** C10. [assess_severity] answers on every float: below 0 it gives the Low
    tuple and above 1 the Severe tuple, the infinities and NaN included. *)
Theorem assess_severity_out_of_range :
  (forall c, float_lt c lit_0_0 = true ->
     assess_severity c =
       ("Low", "low", lit_0_3,
        "Minor surface damage with no immediate safety risk.")) /\
  (forall c, float_lt lit_1_0 c = true ->
     assess_severity c =
       ("Severe", "severe", lit_0_9,
        "Critical damage posing serious safety risks.")) /\
  (forall c, severity_of c ∈ tiers) /\
  assess_severity (S754_infinity true) =
    ("Low", "low", lit_0_3,
     "Minor surface damage with no immediate safety risk.") /\
  assess_severity float_inf =
    ("Severe", "severe", lit_0_9,
     "Critical damage posing serious safety risks.") /\
  assess_severity float_nan =
    ("Severe", "severe", lit_0_9,
     "Critical damage posing serious safety risks.").
Proof.
  split.
  { intros c H. apply assess_low.
    apply (SFltb_trans c lit_0_0 lit_0_40); [exact H | reflexivity]. }
  split.
  { intros c H. apply assess_severe.
    destruct (float_lt c lit_0_70) eqn:E; [|reflexivity].
    assert (SFltb lit_1_0 lit_0_70 = true) as F
      by (apply (SFltb_trans lit_1_0 c lit_0_70); assumption).
    discriminate F. }
  split.
  { intros c.
    destruct (severity_of_cases c) as [(E & _) | [(E & _) | (E & _)]];
      rewrite E; unfold tiers; set_solver. }
  repeat split.
Qed.

Lemma assess_severity_out_of_range_witness :
  assess_severity (float_lit (-5) 10) =
    ("Low", "low", lit_0_3,
     "Minor surface damage with no immediate safety risk.") /\
  assess_severity (float_lit 15 10) =
    ("Severe", "severe", lit_0_9,
     "Critical damage posing serious safety risks.").
Proof.
  destruct assess_severity_out_of_range as (Hneg & Hbig & _).
  split; [apply Hneg; reflexivity | apply Hbig; reflexivity].
Defined.

(** ** The recommendation table *)

Lemma not_known_label (l : string) :
  l ∉ known_labels <-> l <> "crack" /\ l <> "pothole" /\ l <> "manhole".
Proof.
  unfold known_labels. rewrite !not_elem_of_cons.
  pose proof (not_elem_of_nil l). tauto.
Qed.

Lemma not_tier (s : string) :
  s ∉ tiers <-> s <> "Low" /\ s <> "Moderate" /\ s <> "Severe".
Proof.
  unfold tiers. rewrite !not_elem_of_cons.
  pose proof (not_elem_of_nil s). tauto.
Qed.

Lemma actions_unknown_label (l : string) :
  l ∉ known_labels -> actions !! l = None.
Proof.
  rewrite not_known_label. intros (H1 & H2 & H3). unfold actions.
  rewrite !lookup_insert_ne by congruence.
  apply lookup_singleton_ne. congruence.
Qed.

Lemma tier_table_unknown (V : Type) (s : string) (lo mo se : V) :
  s ∉ tiers ->
  ({[ "Low" := lo; "Moderate" := mo; "Severe" := se ]} : gmap string V) !! s = None.
Proof.
  rewrite not_tier. intros (H1 & H2 & H3).
  rewrite !lookup_insert_ne by congruence.
  apply lookup_singleton_ne. congruence.
Qed.

Lemma actions_inner_tiers (l : string) (m : gmap string string) (s : string) :
  actions !! l = Some m -> s ∉ tiers -> m !! s = None.
Proof.
  unfold actions. intros Hm Hs.
  destruct (decide (l = "crack")) as [->|N1].
  { rewrite lookup_insert_eq in Hm. injection Hm as <-.
    apply tier_table_unknown. exact Hs. }
  rewrite lookup_insert_ne in Hm by congruence.
  destruct (decide (l = "pothole")) as [->|N2].
  { rewrite lookup_insert_eq in Hm. injection Hm as <-.
    apply tier_table_unknown. exact Hs. }
  rewrite lookup_insert_ne in Hm by congruence.
  destruct (decide (l = "manhole")) as [->|N3].
  { rewrite lookup_singleton_eq in Hm. injection Hm as <-.
    apply tier_table_unknown. exact Hs. }
  rewrite lookup_singleton_ne in Hm by congruence. discriminate.
Qed.

(** C3. [recommendation] agrees with the table of nine strings, the three
    labels crossed with the three tiers. *)
Theorem recommendation_table :
  recommendation "crack" "Low" = "Seal cracks to prevent water penetration." /\
  recommendation "crack" "Moderate" = "Crack filling followed by surface overlay." /\
  recommendation "crack" "Severe" = "Immediate resurfacing required." /\
  recommendation "pothole" "Low" = "Temporary patch repair recommended." /\
  recommendation "pothole" "Moderate" = "Permanent patch repair with compaction." /\
  recommendation "pothole" "Severe" = "Urgent full-depth reconstruction required." /\
  recommendation "manhole" "Low" = "Routine inspection advised." /\
  recommendation "manhole" "Moderate" = "Level adjustment and reinforcement needed." /\
  recommendation "manhole" "Severe" = "Immediate structural correction required.".
Proof. repeat split; vm_compute; reflexivity. Qed.

(** C4. For a label outside the three known ones, or a tier outside the three
    tiers, [recommendation] returns the default string. *)
Theorem recommendation_default (l s : string) :
  l ∉ known_labels \/ s ∉ tiers ->
  recommendation l s = "Standard maintenance recommended.".
Proof.
  intros H. unfold recommendation, dict_get at 2.
  destruct (actions !! l) as [m|] eqn:Hm.
  - destruct H as [H|H].
    + rewrite (actions_unknown_label l H) in Hm. discriminate.
    + unfold dict_get. rewrite (actions_inner_tiers l m s Hm H). reflexivity.
  - unfold dict_get. rewrite lookup_empty. reflexivity.
Qed.

Lemma recommendation_default_witness :
  recommendation "unknown_label" "Low" = "Standard maintenance recommended." /\
  recommendation "pothole" "Critical" = "Standard maintenance recommended.".
Proof.
  split; apply recommendation_default; [left | right];
    refine (bool_decide_unpack (_ ∉ _) _); vm_compute; exact I.
Defined.

(** ** The reconstruction plans *)

Lemma reconstruction_steps_tiers :
  reconstruction_steps "Low" = Ok steps_low /\
  reconstruction_steps "Moderate" = Ok steps_moderate /\
  reconstruction_steps "Severe" = Ok steps_severe.
Proof. repeat split; vm_compute; reflexivity. Qed.

(** Each text is a blank line, the title, the numbered steps and a last
    line break. *)
Lemma steps_text_lines :
  split_lines steps_low =
    "" :: "**Reconstruction Process (Low Severity)**  " ::
    ordered_items steps_low ++ [""] /\
  split_lines steps_moderate =
    "" :: "**Reconstruction Process (Moderate Severity)**  " ::
    ordered_items steps_moderate ++ [""] /\
  split_lines steps_severe =
    "" :: "**Reconstruction Process (Severe Severity)**  " ::
    ordered_items steps_severe ++ [""].
Proof. repeat split; vm_compute; reflexivity. Qed.

(** C5. [reconstruction_steps] maps each tier to its ordered steps: four for
    Low, five for Moderate and five for Severe, numbered in the order of the
    source. *)
Theorem reconstruction_plan_steps :
  plan_steps "Low" =
    Ok [ "1. Visual inspection  ";
         "2. Cleaning debris  ";
         "3. Crack sealing / minor patching  ";
         "4. Periodic monitoring  " ] /\
  plan_steps "Moderate" =
    Ok [ "1. Detailed site inspection  ";
         "2. Marking damaged zones  ";
         "3. Crack filling / patch repair  ";
         "4. Surface overlay  ";
         "5. Compaction and leveling  " ] /\
  plan_steps "Severe" =
    Ok [ "1. Traffic diversion and safety barricades  ";
         "2. Removal of damaged layers  ";
         "3. Structural base repair  ";
         "4. Full resurfacing  ";
         "5. Quality and load inspection  " ] /\
  (length <$> [ordered_items steps_low; ordered_items steps_moderate;
               ordered_items steps_severe]) = [4; 5; 5]%nat.
Proof. repeat split; vm_compute; reflexivity. Qed.

(** C6. [reconstruction_steps] raises [KeyError] on every string that is not
    one of the three tiers, and never on the severity [assess_severity]
    returns. *)
Theorem reconstruction_steps_failure :
  (forall s : string, s ∉ tiers -> reconstruction_steps s = Raise (KeyError s)) /\
  (forall c : float, exists steps : string,
     reconstruction_steps (severity_of c) = Ok steps).
Proof.
  split.
  - intros s Hs. unfold reconstruction_steps, dict_subscript, steps_table.
    rewrite (tier_table_unknown _ s _ _ _ Hs). reflexivity.
  - intros c. destruct reconstruction_steps_tiers as (HL & HM & HS).
    destruct (severity_of_cases c) as [(E & _) | [(E & _) | (E & _)]];
      rewrite E; eauto.
Qed.

Lemma reconstruction_steps_failure_witness :
  reconstruction_steps "low" = Raise (KeyError "low") /\
  reconstruction_steps "" = Raise (KeyError "") /\
  exists steps : string, reconstruction_steps (severity_of lit_0_55) = Ok steps.
Proof.
  destruct reconstruction_steps_failure as (Hbad & Hgood).
  split; [|split]; [apply Hbad | apply Hbad | apply Hgood];
    refine (bool_decide_unpack (_ ∉ _) _); vm_compute; exact I.
Defined.

(** ** The display loop and the report *)

Lemma append_empty_r (s : string) : s +:+ "" = s.
Proof.
  induction s as [|c s IH]; [reflexivity|].
  change (String c (s +:+ "") = String c s). rewrite IH. reflexivity.
Qed.

Lemma append_assoc (a b c : string) : (a +:+ b) +:+ c = a +:+ (b +:+ c).
Proof.
  induction a as [|x a IH]; [reflexivity|].
  change (String x ((a +:+ b) +:+ c) = String x (a +:+ (b +:+ c))).
  rewrite IH. reflexivity.
Qed.

Lemma damage_cards_of_widgets (l1 l2 : list widget) :
  List.filter is_damage_card (l1 ++ l2) =
  (List.filter is_damage_card l1 ++ List.filter is_damage_card l2)%list.
Proof. apply List.filter_app. Qed.

Section DisplayProperties.

Variable upper : string -> string.
Variable format_2f : float -> string.

Local Abbreviation issue_of := (detection_issue upper).
Local Abbreviation card_of := (detection_card upper format_2f).
Local Abbreviation widgets_of := (detection_widgets upper format_2f).

Lemma loop_body_spec (i : nat) (d : Detection) (st : state) :
  loop_body upper format_2f i d st =
  Ok {| issues := issues st ++ [issue_of d];
        page := page st ++ widgets_of i d |}.
Proof.
  unfold loop_body, detection_issue, detection_widgets, detection_card.
  destruct reconstruction_steps_tiers as (HL & HM & HS).
  unfold assess_severity.
  destruct (float_lt (conf d) lit_0_40); [|destruct (float_lt (conf d) lit_0_70)];
    [rewrite HL | rewrite HM | rewrite HS];
    unfold mbind, result_bind, mret, result_ret, emit, append_issue;
    cbn [issues page]; rewrite <- !app_assoc; reflexivity.
Qed.

Lemma for_enumerate_spec (boxes : list Detection) :
  forall (i : nat) (st : state),
    for_enumerate upper format_2f i boxes st =
    Ok {| issues := issues st ++ (issue_of <$> boxes);
          page := page st ++ concat (imap (fun k => widgets_of (i + k)) boxes) |}.
Proof.
  induction boxes as [|d rest IH]; intros i st.
  - cbn [for_enumerate fmap list_fmap imap concat]. rewrite !app_nil_r.
    destruct st; reflexivity.
  - cbn [for_enumerate]. rewrite loop_body_spec.
    unfold mbind, result_bind. rewrite IH. cbn [issues page].
    rewrite imap_cons, fmap_cons. cbn [concat].
    rewrite <- !app_assoc. cbn [app].
    replace (i + 0)%nat with i by lia.
    rewrite (imap_ext (fun k => widgets_of (S i + k))
               ((fun k => widgets_of (i + k)) ∘ S) rest); [reflexivity|].
    intros k x _. cbn. f_equal. lia.
Qed.

Lemma widgets_of_cards (i : nat) (d : Detection) :
  List.filter is_damage_card (widgets_of i d) = [st_markdown (card_of i d) true].
Proof.
  unfold detection_widgets.
  destruct (assess_severity (conf d)) as [[[severity css] score] explanation].
  destruct (reconstruction_steps severity); reflexivity.
Qed.

Lemma cards_of_loop (boxes : list Detection) :
  forall f : nat -> nat,
    List.filter is_damage_card (concat (imap (fun k => widgets_of (f k)) boxes)) =
    imap (fun k d => st_markdown (card_of (f k) d) true) boxes.
Proof.
  induction boxes as [|d rest IH]; intros f; [reflexivity|].
  rewrite !imap_cons. cbn [concat].
  rewrite damage_cards_of_widgets, widgets_of_cards. cbn [app]. f_equal.
  apply (IH (f ∘ S)).
Qed.

(** What a run of the display gives, for any boxes. *)
Lemma display_results_spec (now : string) (boxes : option (list Detection)) :
  let bs := default [] boxes in
  let text := report_text now (issue_of <$> bs) in
  display_results upper format_2f now boxes =
  Ok ((page_top ++
       match bs with
       | [] => [st_success "✅ No road damage detected."]
       | _ :: _ => concat (imap widgets_of bs)
       end ++ page_bottom text)%list, text).
Proof.
  unfold display_results.
  destruct boxes as [[|d rest]|]; cbn [default from_option id length Nat.ltb Nat.leb];
    try reflexivity.
  rewrite for_enumerate_spec.
  unfold mbind, result_bind, mret, result_ret, emit. cbn [issues page app].
  reflexivity.
Qed.

(** The report of the source is the layout of the specification behind one
    line break, the one the f-string opens with. *)
Lemma report_text_layout (now : string) (blocks : list string) :
  report_text now blocks = nl +:+ spec_report now blocks.
Proof.
  unfold report_text, report_head, spec_report.
  rewrite !append_assoc. reflexivity.
Qed.

Lemma issue_is_spec_block (d : Detection) :
  issue_of d = spec_detection_block upper d.
Proof. reflexivity. Qed.

(** C7, as the code has it. The report is one line break followed by the
    literal layout: the header line, a rule of 30 dashes, the date line, a
    blank line, the issues heading with a rule of 16 dashes, then one block
    per detection, the blocks separated by a blank line. *)
Theorem report_layout (now : string) (boxes : option (list Detection)) :
  report_of (display_results upper format_2f now boxes) =
  Some (nl +:+ spec_report now (spec_detection_block upper <$> default [] boxes)).
Proof.
  rewrite display_results_spec. cbn [report_of].
  rewrite report_text_layout. reflexivity.
Qed.

(** C8. With no detection the report is the header alone, nothing is
    joined after it, and the page shows no block of a detection. *)
Theorem empty_detections_report (now : string) :
  report_of (display_results upper format_2f now (Some [])) =
    Some (report_head now) /\
  report_of (display_results upper format_2f now None) =
    Some (report_head now) /\
  String.concat (nl +:+ nl) (issue_of <$> []) = "" /\
  page_of (display_results upper format_2f now (Some [])) =
    Some (page_top ++ [st_success "✅ No road damage detected."] ++
          page_bottom (report_head now))%list /\
  page_of (display_results upper format_2f now None) =
    page_of (display_results upper format_2f now (Some [])) /\
  List.filter is_damage_card
    (page_top ++ [st_success "✅ No road damage detected."] ++
     page_bottom (report_head now)) = [].
Proof.
  rewrite !display_results_spec. cbn [report_of page_of default from_option id].
  cbn [fmap list_fmap]. unfold report_text. cbn [String.concat].
  rewrite append_empty_r. repeat split.
Qed.

(** C9. N detections give N blocks, in the order of the input, and the
    block at position k, counted from 0, is labelled Damage k+1; the report
    lists the same detections in the same order. *)
Theorem detection_blocks_in_order (now : string) (boxes : list Detection) :
  exists pg : list widget,
    page_of (display_results upper format_2f now (Some boxes)) = Some pg /\
    pg = (page_top ++
          match boxes with
          | [] => [st_success "✅ No road damage detected."]
          | _ :: _ => concat (imap widgets_of boxes)
          end ++
          page_bottom (report_text now (issue_of <$> boxes)))%list /\
    List.filter is_damage_card pg =
      imap (fun k d => st_markdown (card_of k d) true) boxes /\
    length (List.filter is_damage_card pg) = length boxes /\
    (forall (k : nat) (d : Detection), exists before rest : string,
       card_of k d =
       before +:+ "<b>Damage " +:+ str_of_nat (k + 1) +:+ "</b><br>" +:+ rest) /\
    report_of (display_results upper format_2f now (Some boxes)) =
      Some (report_text now (issue_of <$> boxes)).
Proof.
  rewrite display_results_spec. cbn [report_of page_of default from_option id].
  eexists. split; [reflexivity|]. split; [reflexivity|].
  assert (List.filter is_damage_card
            (page_top ++
             match boxes with
             | [] => [st_success "✅ No road damage detected."]
             | _ :: _ => concat (imap widgets_of boxes)
             end ++
             page_bottom (report_text now (issue_of <$> boxes))) =
          imap (fun k d => st_markdown (card_of k d) true) boxes) as Hcards.
  { rewrite !damage_cards_of_widgets. cbn [page_top page_bottom List.filter is_damage_card app].
    rewrite app_nil_r.
    destruct boxes as [|d rest]; [reflexivity|].
    apply (cards_of_loop (d :: rest) (fun k => k)). }
  split; [exact Hcards|].
  split; [rewrite Hcards; apply length_imap|].
  split; [|reflexivity].
  intros k d. unfold detection_card.
  destruct (assess_severity (conf d)) as [[[severity css] score] explanation].
  unfold damage_card.
  exists ("
            <div class=" +:+ dq +:+ "report-box" +:+ dq +:+ ">
            ").
  eexists. rewrite !append_assoc. reflexivity.
Qed.

End DisplayProperties.

(** The report of the sample run does not start with the header line: the
    layout of the specification alone is not what the code produces. *)
Lemma report_not_spec_layout :
  report_of (display_results ascii_upper fixed_2f sample_now (Some sample_boxes)) <>
  Some (spec_report sample_now (spec_detection_block ascii_upper <$> sample_boxes)).
Proof. vm_compute. discriminate. Qed.

(** The labels of the sample run, and the decimal spelling of the counter. *)
Lemma sample_blocks :
  page_of (display_results ascii_upper fixed_2f sample_now (Some sample_boxes)) =
  Some (page_top ++
        concat (imap (detection_widgets ascii_upper fixed_2f) sample_boxes) ++
        page_bottom (report_text sample_now
                       (detection_issue ascii_upper <$> sample_boxes)))%list /\
  expander_title 0 = "🛠 Reconstruction Details – Damage 1" /\
  expander_title 1 = "🛠 Reconstruction Details – Damage 2" /\
  str_of_nat <$> [1; 2; 9; 10; 11; 100]%nat = ["1"; "2"; "9"; "10"; "11"; "100"].
Proof. repeat split; vm_compute; reflexivity. Qed.

(** * Further properties of the helpers and of the display *)

(** ** Severity and score follow the confidence *)

Lemma float_le_lt_below (a b t : float) :
  float_le a b = true -> float_lt b t = true -> float_lt a t = true.
Proof. apply SFleb_ltb_trans. Qed.

(** X1. A detection with a higher confidence never gets a lower tier nor a
    lower score. *)
Theorem severity_monotone (a b : float) :
  float_le a b = true ->
  (tier_rank (severity_of a) <= tier_rank (severity_of b))%nat /\
  float_le (score_of a) (score_of b) = true.
Proof.
  intros Hab. unfold score_of, severity_of, assess_severity.
  destruct (float_lt b lit_0_40) eqn:B4.
  - rewrite (float_le_lt_below a b _ Hab B4). split; [reflexivity|reflexivity].
  - destruct (float_lt b lit_0_70) eqn:B7.
    + rewrite (float_le_lt_below a b _ Hab B7).
      destruct (float_lt a lit_0_40); split; vm_compute; congruence || lia.
    + destruct (float_lt a lit_0_40); [|destruct (float_lt a lit_0_70)];
        split; vm_compute; congruence || lia.
Qed.

Lemma severity_monotone_witness :
  (tier_rank (severity_of lit_0_25) <= tier_rank (severity_of lit_0_85))%nat /\
  float_le (score_of lit_0_25) (score_of lit_0_85) = true.
Proof. apply (severity_monotone lit_0_25 lit_0_85). reflexivity. Defined.

(** ** The recommendation table is complete *)

Lemma known_label_cases (l : string) :
  l ∈ known_labels -> l = "crack" \/ l = "pothole" \/ l = "manhole".
Proof.
  unfold known_labels. rewrite !elem_of_cons, elem_of_nil. tauto.
Qed.

Lemma tier_cases (s : string) :
  s ∈ tiers -> s = "Low" \/ s = "Moderate" \/ s = "Severe".
Proof.
  unfold tiers. rewrite !elem_of_cons, elem_of_nil. tauto.
Qed.

Lemma recommendation_specific (l s : string) :
  l ∈ known_labels -> s ∈ tiers ->
  recommendation l s <> "Standard maintenance recommended.".
Proof.
  intros Hl Hs.
  destruct (known_label_cases l Hl) as [-> | [-> | ->]];
    destruct (tier_cases s Hs) as [-> | [-> | ->]];
    vm_compute; discriminate.
Qed.

(** X2. [recommendation] gives the default string exactly when the label is
    not one of the three known ones or the severity is not one of the three
    tiers: no entry of the table is the default. *)
Theorem recommendation_default_iff (l s : string) :
  recommendation l s = "Standard maintenance recommended." <->
  l ∉ known_labels \/ s ∉ tiers.
Proof.
  split.
  - intros H.
    destruct (decide (l ∈ known_labels)) as [Hl|Hl]; [|left; exact Hl].
    destruct (decide (s ∈ tiers)) as [Hs|Hs]; [|right; exact Hs].
    exfalso. exact (recommendation_specific l s Hl Hs H).
  - intros H. unfold recommendation, dict_get at 2.
    destruct (actions !! l) as [m|] eqn:Hm.
    + destruct H as [H|H].
      * rewrite (actions_unknown_label l H) in Hm. discriminate.
      * unfold dict_get. rewrite (actions_inner_tiers l m s Hm H). reflexivity.
    + unfold dict_get. rewrite lookup_empty. reflexivity.
Qed.

Lemma recommendation_default_iff_witness :
  recommendation "speed bump" "Severe" = "Standard maintenance recommended." /\
  ("crack" ∉ known_labels \/ "Low" ∉ tiers ->
   recommendation "crack" "Low" = "Standard maintenance recommended.").
Proof.
  split.
  - apply (recommendation_default_iff "speed bump" "Severe"). left.
    refine (bool_decide_unpack (_ ∉ _) _); vm_compute; exact I.
  - apply (recommendation_default_iff "crack" "Low").
Defined.

(** X3. In the display, a detection whose label is in the table always gets
    an action of its own, whatever its confidence, and a detection with any
    other label always gets the default. *)
Theorem detection_action (l : string) (c : float) :
  (l ∈ known_labels ->
     recommendation l (severity_of c) <> "Standard maintenance recommended.") /\
  (l ∉ known_labels ->
     recommendation l (severity_of c) = "Standard maintenance recommended.").
Proof.
  assert (severity_of c ∈ tiers) as Hs.
  { destruct (severity_of_cases c) as [(E & _) | [(E & _) | (E & _)]];
      rewrite E; unfold tiers; set_solver. }
  split; intros Hl.
  - apply recommendation_specific; assumption.
  - unfold recommendation, dict_get at 2.
    rewrite (actions_unknown_label l Hl). unfold dict_get.
    rewrite lookup_empty. reflexivity.
Qed.

Lemma detection_action_witness :
  recommendation "manhole" (severity_of lit_0_55) <>
    "Standard maintenance recommended." /\
  recommendation "Pothole" (severity_of lit_0_55) =
    "Standard maintenance recommended.".
Proof.
  split.
  - apply (detection_action "manhole" lit_0_55).
    refine (bool_decide_unpack (_ ∈ _) _); vm_compute; exact I.
  - apply (detection_action "Pothole" lit_0_55).
    refine (bool_decide_unpack (_ ∉ _) _); vm_compute; exact I.
Defined.

(** ** The labels of the blocks *)

Lemma to_uint_not_nil (n : nat) : Nat.to_uint n <> Decimal.Nil.
Proof.
  intros H. pose proof (DecimalNat.Unsigned.of_to n) as E.
  rewrite H in E. cbn in E. subst n. discriminate H.
Qed.

Lemma append_inj_l (p a b : string) : p +:+ a = p +:+ b -> a = b.
Proof.
  induction p as [|x p IH]; [exact (fun H => H)|].
  intros H. injection H as H. exact (IH H).
Qed.

(** X4. The number of a block can be read back from its decimal spelling, so
    two positions never share the title of their expander. *)
Theorem block_labels_distinct :
  (forall n : nat, nat_of_str (str_of_nat n) = Some n) /\
  (forall i j : nat, expander_title i = expander_title j -> i = j).
Proof.
  assert (forall n : nat, nat_of_str (str_of_nat n) = Some n) as Hrt.
  { intros n. unfold nat_of_str, str_of_nat.
    rewrite (NilZero.usu _ (to_uint_not_nil n)). cbn.
    rewrite DecimalNat.Unsigned.of_to. reflexivity. }
  split; [exact Hrt|].
  intros i j H. unfold expander_title in H. apply append_inj_l in H.
  assert (Some (i + 1)%nat = Some (j + 1)%nat) as E
    by (rewrite <- !Hrt, H; reflexivity).
  injection E as E. lia.
Qed.

Lemma block_labels_distinct_witness :
  nat_of_str (str_of_nat 12) = Some 12%nat /\
  expander_title 3 <> expander_title 13.
Proof.
  destruct block_labels_distinct as (Hrt & Hinj).
  split; [apply Hrt|].
  intros H. apply Hinj in H. discriminate H.
Defined.

(** ** The page of the display *)

Lemma score_of_range (c : float) :
  float_le lit_0_0 (score_of c) = true /\ float_le (score_of c) lit_1_0 = true.
Proof.
  unfold score_of, assess_severity.
  destruct (float_lt c lit_0_40); [|destruct (float_lt c lit_0_70)];
    split; reflexivity.
Qed.

Lemma reconstruction_steps_of_severity (c : float) :
  exists steps : string, reconstruction_steps (severity_of c) = Ok steps.
Proof.
  destruct reconstruction_steps_tiers as (HL & HM & HS).
  destruct (severity_of_cases c) as [(E & _) | [(E & _) | (E & _)]];
    rewrite E; eauto.
Qed.

Section PageProperties.

Variable upper : string -> string.
Variable format_2f : float -> string.

Local Abbreviation widgets_of := (detection_widgets upper format_2f).

Lemma widgets_of_shape (i : nat) (d : Detection) :
  exists steps : string,
    widgets_of i d =
    [ st_markdown (detection_card upper format_2f i d) true;
      st_write "**Severity Level**";
      st_progress (score_of (conf d));
      st_expander (expander_title i) [st_markdown steps false] ].
Proof.
  destruct (reconstruction_steps_of_severity (conf d)) as [steps Hs].
  exists steps. unfold detection_widgets, score_of, severity_of in *.
  destruct (assess_severity (conf d)) as [[[severity css] score] explanation].
  rewrite Hs. reflexivity.
Qed.


Lemma loop_widgets_progress (boxes : list Detection) (v : float) :
  forall f : nat -> nat,
    st_progress v ∈ concat (imap (fun k => widgets_of (f k)) boxes) ->
    exists d, d ∈ boxes /\ v = score_of (conf d).
Proof.
  induction boxes as [|d rest IH]; intros f.
  - cbn. intros H. apply elem_of_nil in H. contradiction.
  - rewrite imap_cons. cbn [concat]. rewrite elem_of_app. intros [H|H].
    + destruct (widgets_of_shape (f 0%nat) d) as [steps E]. rewrite E in H.
      rewrite !elem_of_cons, elem_of_nil in H.
      destruct H as [H|[H|[H|[H|[]]]]]; try discriminate H.
      injection H as ->. exists d. split; [left|reflexivity].
    + destruct (IH (f ∘ S) H) as (d' & Hd & E).
      exists d'. split; [right; exact Hd | exact E].
Qed.

(** X5. Every progress bar of the page gets a value between 0 and 1, the
    range [st.progress] takes, and it is the score of one of the detections. *)
Theorem progress_values_in_range (now : string) (boxes : option (list Detection))
    (pg : list widget) (v : float) :
  page_of (display_results upper format_2f now boxes) = Some pg ->
  st_progress v ∈ pg ->
  float_le lit_0_0 v = true /\ float_le v lit_1_0 = true /\
  exists d, d ∈ default [] boxes /\ v = score_of (conf d).
Proof.
  rewrite display_results_spec. cbn [page_of]. intros [= <-].
  rewrite !elem_of_cons, elem_of_app.
  intros [H|[H|[H|[H|H]]]]; try discriminate H.
  - destruct (default [] boxes) as [|d rest] eqn:Eb.
    + rewrite elem_of_cons, elem_of_nil in H. destruct H as [H|[]]. discriminate H.
    + destruct (loop_widgets_progress (d :: rest) v (fun k => k) H) as (d' & Hd & ->).
      destruct (score_of_range (conf d')) as [H0 H1]. eauto.
  - unfold page_bottom in H. rewrite elem_of_cons, elem_of_nil in H.
    destruct H as [H|[]]. discriminate H.
Qed.


End PageProperties.

Lemma progress_values_in_range_witness :
  float_le lit_0_0 lit_0_9 = true /\ float_le lit_0_9 lit_1_0 = true /\
  exists d, d ∈ default [] (Some sample_boxes) /\ lit_0_9 = score_of (conf d).
Proof.
  refine (progress_values_in_range ascii_upper fixed_2f sample_now
            (Some sample_boxes) _ lit_0_9 eq_refl _).
  apply (list_elem_of_lookup_2 _ 5). vm_compute. reflexivity.
Defined.

(** * Properties of the script as a whole *)

Section ScriptProperties.

Variables Model File Image Results : Type.
Variable boxes_of : Results -> option (list Detection).
Variable upper : string -> string.
Variable format_2f : float -> string.

Implicit Types (ss : gmap string (value Image Results))
               (st : run_state Image Results)
               (w : world Model File Image Results)
               (v : value Image Results).

Local Abbreviation run := (script boxes_of upper format_2f).
Local Abbreviation display := (display_section boxes_of upper format_2f).

(** ** The initialisation of the session state *)

Lemma init_key_union (k : string) v ss : init_key k v ss = ss ∪ {[k := v]}.
Proof.
  unfold init_key. destruct (ss !! k) as [x|] eqn:E.
  - apply map_eq. intros i. rewrite lookup_union.
    destruct (decide (k = i)) as [<-|N].
    + rewrite E, lookup_singleton_eq. reflexivity.
    + rewrite lookup_singleton_ne by exact N. destruct (ss !! i); reflexivity.
  - apply map_eq. intros i. rewrite lookup_union.
    destruct (decide (k = i)) as [<-|N].
    + rewrite lookup_insert_eq, E, lookup_singleton_eq. reflexivity.
    + rewrite lookup_insert_ne, lookup_singleton_ne by exact N.
      destruct (ss !! i); reflexivity.
Qed.

Lemma init_session_union ss : init_session ss = ss ∪ init_session ∅.
Proof.
  unfold init_session. rewrite !init_key_union.
  rewrite (left_id_L ∅ (∪)). rewrite <- !(assoc_L (∪)). reflexivity.
Qed.

Lemma init_session_lookup ss (k : string) :
  init_session ss !! k =
  match ss !! k with
  | Some v => Some v
  | None => init_session ∅ !! k
  end.
Proof.
  rewrite init_session_union, lookup_union.
  destruct (ss !! k), (init_session ∅ !! k); reflexivity.
Qed.

Lemma init_key_fresh (k : string) v ss :
  ss !! k = None -> init_key k v ss = <[k := v]> ss.
Proof. intros H. unfold init_key. rewrite H. reflexivity. Qed.

Lemma init_session_empty :
  (init_session ∅ : gmap string (value Image Results)) =
  <["report_text" := VStr ""]> (<["annotated" := VNone]>
    (<["results" := VNone]> (<["analysis_done" := VBool false]> ∅))).
Proof.
  unfold init_session.
  rewrite (init_key_fresh "analysis_done") by apply lookup_empty.
  rewrite (init_key_fresh "results")
    by (rewrite !lookup_insert_ne by congruence; apply lookup_empty).
  rewrite (init_key_fresh "annotated")
    by (rewrite !lookup_insert_ne by congruence; apply lookup_empty).
  rewrite (init_key_fresh "report_text")
    by (rewrite !lookup_insert_ne by congruence; apply lookup_empty).
  reflexivity.
Qed.

Lemma init_empty_lookup (k : string) :
  (k ∈ session_keys ->
     is_Some ((init_session ∅ : gmap string (value Image Results)) !! k)) /\
  (k ∉ session_keys ->
     (init_session ∅ : gmap string (value Image Results)) !! k = None).
Proof.
  unfold session_keys.
  rewrite !not_elem_of_cons, !elem_of_cons, elem_of_nil.
  split.
  - intros [->|[->|[->|[->|[]]]]]; vm_compute; eauto.
  - intros (N1 & N2 & N3 & N4 & _). rewrite init_session_empty.
    rewrite !lookup_insert_ne by congruence.
    apply lookup_empty.
Qed.

(** X7. The initialisation only fills in what is missing: every entry of the
    session state keeps its value, the four keys of the script are there
    afterwards, no other key is touched, and a second initialisation changes
    nothing. *)
Theorem init_session_fills_missing ss :
  (forall (k : string) v, ss !! k = Some v -> init_session ss !! k = Some v) /\
  (forall k : string, k ∈ session_keys -> is_Some (init_session ss !! k)) /\
  (forall k : string, k ∉ session_keys -> init_session ss !! k = ss !! k) /\
  init_session (init_session ss) = init_session ss.
Proof.
  split; [|split; [|split]].
  - intros k v H. rewrite init_session_lookup, H. reflexivity.
  - intros k Hk. rewrite init_session_lookup.
    destruct (ss !! k); [eauto|]. apply init_empty_lookup. exact Hk.
  - intros k Hk. rewrite init_session_lookup.
    destruct (ss !! k); [reflexivity|]. apply init_empty_lookup. exact Hk.
  - apply map_eq. intros k. rewrite (init_session_lookup (init_session ss)).
    rewrite (init_session_lookup ss).
    destruct (ss !! k); [reflexivity|].
    destruct (init_session ∅ !! k); reflexivity.
Qed.

(** ** What a run does to the session state and to the page *)

Lemma session_ok_results ss (r : Results) :
  session_ok ss -> session_ok (<["results" := VResults r]> ss).
Proof.
  intros (b & res & ann & text & H1 & H2 & H3 & H4 & Hres & Hann & Hdone).
  exists b, (VResults r), ann, text.
  rewrite lookup_insert_eq, !lookup_insert_ne by congruence.
  repeat split; eauto. apply Hdone. assumption.
Qed.

Lemma session_ok_done ss (r : Results) (a : Image) :
  session_ok ss ->
  session_ok (<["analysis_done" := VBool true]>
                (<["annotated" := VImage a]> (<["results" := VResults r]> ss))).
Proof.
  intros (b & res & ann & text & H1 & H2 & H3 & H4 & _).
  exists true, (VResults r), (VImage a), text.
  rewrite lookup_insert_eq.
  rewrite (lookup_insert_ne _ "analysis_done" "results") by congruence.
  rewrite (lookup_insert_ne _ "annotated" "results") by congruence.
  rewrite lookup_insert_eq.
  rewrite (lookup_insert_ne _ "analysis_done" "annotated") by congruence.
  rewrite lookup_insert_eq.
  rewrite !lookup_insert_ne by congruence.
  repeat split; eauto.
Qed.

Lemma session_ok_report ss (text : string) :
  session_ok ss -> session_ok (<["report_text" := VStr text]> ss).
Proof.
  intros (b & res & ann & old & H1 & H2 & H3 & H4 & Hres & Hann & Hdone).
  exists b, res, ann, text.
  rewrite lookup_insert_eq, !lookup_insert_ne by congruence.
  repeat split; try assumption; apply Hdone; assumption.
Qed.

Lemma session_ok_init_empty :
  session_ok (init_session ∅ : gmap string (value Image Results)).
Proof.
  exists false, VNone, VNone, "".
  repeat split; try (vm_compute; reflexivity); eauto; discriminate.
Qed.

Lemma session_ok_init ss : session_ok ss -> init_session ss = ss.
Proof.
  intros (b & res & ann & text & H1 & H2 & H3 & H4 & _).
  apply map_eq. intros k. rewrite init_session_lookup.
  destruct (ss !! k) eqn:E; [reflexivity|].
  destruct (decide (k ∈ session_keys)) as [Hk|Hk].
  - unfold session_keys in Hk. rewrite !elem_of_cons, elem_of_nil in Hk.
    destruct Hk as [->|[->|[->|[->|[]]]]]; congruence.
  - apply init_empty_lookup. exact Hk.
Qed.

Ltac page_grows :=
  unfold render, assign; cbn [rendered session];
  rewrite <- ?app_assoc; cbn [app]; reflexivity.

Ltac not_this_error :=
  rewrite ?not_elem_of_cons; repeat split;
  try apply not_elem_of_nil;
  try (intros E; cbn in E; discriminate E).

Lemma upload_section_effect w (model : option Model) st :
  exists extra : list element,
    rendered (upload_section w model st) = (rendered st ++ extra)%list /\
    (length (List.filter is_error extra) <= 1)%nat /\
    (model <> None -> st_error "Model not loaded." ∉ extra) /\
    upload_outcome st (upload_section w model st).
Proof.
  unfold upload_section, analyze, upload_outcome.
  destruct (uploaded_file w) as [f|].
  2: { eexists. split; [page_grows|]. split; [cbn; lia|].
       split; [intros _; not_this_error | left; reflexivity]. }
  destruct (image_open w f) as [img|[msg|msg]].
  2,3: eexists; (split; [page_grows|]); (split; [cbn; lia|]);
       (split; [intros _; not_this_error | left; reflexivity]).
  destruct (button_pressed w).
  2: { eexists. split; [page_grows|]. split; [cbn; lia|].
       split; [intros _; not_this_error | left; reflexivity]. }
  destruct model as [m|].
  2: { eexists. split; [page_grows|]. split; [cbn; lia|].
       split; [congruence | left; reflexivity]. }
  destruct (yolo_infer w m img) as [r|e].
  2: { eexists. split; [page_grows|]. split; [cbn; lia|].
       split; [intros _; not_this_error | left; reflexivity]. }
  destruct (results_plot w r) as [a|e].
  - eexists. split; [page_grows|]. split; [cbn; lia|].
    split; [intros _; not_this_error|]. right. right. exists r, a. reflexivity.
  - eexists. split; [page_grows|]. split; [cbn; lia|].
    split; [intros _; not_this_error|]. right. left. exists r. reflexivity.
Qed.

Lemma upload_section_ok w (model : option Model) st :
  session_ok (session st) -> session_ok (session (upload_section w model st)).
Proof.
  intros H.
  destruct (upload_section_effect w model st) as (_ & _ & _ & _ & Hs).
  destruct Hs as [-> | [(r & ->) | (r & a & ->)]];
    auto using session_ok_results, session_ok_done.
Qed.

Lemma display_section_effect w st :
  (session (display w st).1 = session st \/
   exists text : string,
     session (display w st).1 = <["report_text" := VStr text]> (session st)) /\
  exists pg : list widget,
    rendered (display w st).1 = (rendered st ++ (shown <$> pg))%list.
Proof.
  unfold display_section.
  destruct (read "analysis_done" (session st)) as [c|done];
    [split; [left; reflexivity | exists []; cbn; rewrite app_nil_r; reflexivity]|].
  destruct (truthy done);
    [|split; [left; reflexivity | exists []; cbn; rewrite app_nil_r; reflexivity]].
  destruct (read "annotated" (session st)) as [c|ann];
    [split; [left; reflexivity | exists []; cbn; rewrite app_nil_r; reflexivity]|].
  destruct (read "results" (session st)) as [c|res];
    [split; [left; reflexivity | exists []; cbn; rewrite app_nil_r; reflexivity]|].
  destruct (first_boxes boxes_of res) as [c|boxes];
    [split; [left; reflexivity | exists []; cbn; rewrite app_nil_r; reflexivity]|].
  destruct (display_results upper format_2f (clock w) boxes) as [[pg text]|e];
    [|split; [left; reflexivity | exists []; cbn; rewrite app_nil_r; reflexivity]].
  split; [right; exists text; reflexivity | exists pg; reflexivity].
Qed.

Lemma display_section_finishes w st :
  session_ok (session st) -> (display w st).2 = Finished.
Proof.
  intros (b & res & ann & text & H1 & H2 & H3 & H4 & Hres & Hann & Hdone).
  unfold display_section, read. rewrite H1. cbn [truthy].
  destruct b; [|reflexivity].
  rewrite H3, H2. destruct (Hdone eq_refl) as [(r & ->) _]. cbn [first_boxes].
  rewrite display_results_spec. reflexivity.
Qed.

Lemma display_section_ok w st :
  session_ok (session st) -> session_ok (session (display w st).1).
Proof.
  intros H. destruct (display_section_effect w st) as [[-> | (text & ->)] _];
    auto using session_ok_report.
Qed.

(** One run, from a session state that is as the script leaves it. *)
Lemma run_effect w ss :
  session_ok (init_session ss) ->
  session_ok (session (run w ss).1) /\
  (run w ss).2 =
    match yolo_load w with
    | Returns _ => Finished
    | Throws _ => Stopped
    end /\
  (forall m, yolo_load w = Returns m ->
     exists body : list element,
       rendered (run w ss).1 = (page_header ++ body ++ page_end)%list /\
       (length (List.filter is_error body) <= 1)%nat /\
       st_error "Model not loaded." ∉ body).
Proof.
  intros Hok. unfold script, load_model.
  destruct (yolo_load w) as [m|e].
  - set (st0 := {| session := init_session ss; rendered := page_header |}).
    set (st1 := upload_section w (Some m) st0).
    assert (session_ok (session st1)) as H1
      by (apply upload_section_ok; exact Hok).
    pose proof (display_section_finishes w st1 H1) as Hfin.
    pose proof (display_section_ok w st1 H1) as H2.
    destruct (display_section_effect w st1) as [_ (pg & Hpg)].
    destruct (upload_section_effect w (Some m) st0) as (extra & Hex & Hone & Hnot & _).
    fold st1 in Hex.
    destruct (display w st1) as [st2 s]. cbn [fst snd] in *. subst s.
    cbn [fst snd session rendered].
    split; [exact H2|]. split; [reflexivity|].
    intros m' _. exists (extra ++ (shown <$> pg))%list.
    rewrite Hpg, Hex. cbn [rendered st0]. rewrite <- !app_assoc.
    split; [reflexivity|].
    rewrite List.filter_app, length_app.
    assert (List.filter is_error (shown <$> pg) = []) as ->
      by (clear; induction pg as [|x pg IH]; [reflexivity | exact IH]).
    split; [cbn [length]; lia|].
    rewrite not_elem_of_app. split; [apply Hnot; discriminate|].
    intros Hin. apply list_elem_of_fmap in Hin. destruct Hin as (x & E & _).
    discriminate E.
  - cbn [fst snd session]. split; [exact Hok|]. split; [reflexivity|].
    intros m [=].
Qed.

Lemma run_stopped w ss (e : lib_error) :
  yolo_load w = Throws e ->
  run w ss =
  ({| session := init_session ss;
      rendered := page_header ++
                  [st_error ("Error loading model: " +:+ str_of_error e)] |},
   Stopped).
Proof. intros H. unfold script, load_model. rewrite H. reflexivity. Qed.

Lemma run_unfold w ss (m : Model) :
  yolo_load w = Returns m ->
  let st1 := upload_section w (Some m)
               {| session := init_session ss; rendered := page_header |} in
  session (run w ss).1 = session (display w st1).1 /\
  (run w ss).2 = (display w st1).2 /\
  exists tail : list element,
    rendered (run w ss).1 = (rendered (display w st1).1 ++ tail)%list /\
    (tail = page_end \/ tail = []) /\
    ((run w ss).2 = Finished -> tail = page_end).
Proof.
  intros H st1. unfold script, load_model. rewrite H. fold st1.
  destruct (display w st1) as [st2 [| |c]]; cbn [fst snd session rendered].
  - split; [reflexivity|]. split; [reflexivity|]. exists page_end. auto.
  - split; [reflexivity|]. split; [reflexivity|]. exists [].
    rewrite app_nil_r. split; [reflexivity|]. split; [auto | discriminate].
  - split; [reflexivity|]. split; [reflexivity|]. exists [].
    rewrite app_nil_r. split; [reflexivity|]. split; [auto | discriminate].
Qed.

(** Whatever holds of the initialised session state and is kept by the
    three assignments of the analysis and by the assignment of the report
    holds after a run. *)
Lemma run_session_rule (P : gmap string (value Image Results) -> Prop) w ss :
  P (init_session ss) ->
  (forall s (r : Results), P s -> P (<["results" := VResults r]> s)) ->
  (forall s (a : Image), P s -> P (<["annotated" := VImage a]> s)) ->
  (forall s, P s -> P (<["analysis_done" := VBool true]> s)) ->
  (forall s (text : string), P s -> P (<["report_text" := VStr text]> s)) ->
  P (session (run w ss).1).
Proof.
  intros Hinit Hres Hann Hdone Hrep.
  destruct (yolo_load w) as [m|e] eqn:Hload.
  - destruct (run_unfold w ss m Hload) as (-> & _).
    set (st0 := {| session := init_session ss; rendered := page_header |}).
    assert (P (session (upload_section w (Some m) st0))) as H1.
    { destruct (upload_section_effect w (Some m) st0) as (_ & _ & _ & _ & Hs).
      destruct Hs as [-> | [(r & ->) | (r & a & ->)]]; auto. }
    destruct (display_section_effect w (upload_section w (Some m) st0))
      as [[-> | (text & ->)] _]; auto.
  - rewrite (run_stopped w ss e Hload). exact Hinit.
Qed.

Lemma display_session_only w w' st st' :
  session st = session st' -> clock w = clock w' ->
  session (display w st).1 = session (display w' st').1 /\
  (display w st).2 = (display w' st').2.
Proof.
  intros Hs Hc. unfold display_section. rewrite Hs, Hc.
  destruct (read "analysis_done" (session st')) as [c|done]; [auto|].
  destruct (truthy done); [|auto].
  destruct (read "annotated" (session st')) as [c|ann]; [auto|].
  destruct (read "results" (session st')) as [c|res]; [auto|].
  destruct (first_boxes boxes_of res) as [c|boxes]; [auto|].
  destruct (display_results upper format_2f (clock w') boxes) as [[pg text]|e];
    cbn [fst snd session]; rewrite ?Hs; auto.
Qed.

(** ** Sessions over many runs *)

Lemma reruns_ok (ws : list (world Model File Image Results)) :
  forall ss, session_ok (init_session ss) ->
    session_ok (init_session (reruns boxes_of upper format_2f ws ss)).
Proof.
  induction ws as [|w rest IH]; intros ss H; [exact H|].
  cbn [reruns]. apply IH.
  destruct (run_effect w ss H) as (Hok & _).
  rewrite (session_ok_init _ Hok). exact Hok.
Qed.

(** X8. A run keeps the session state as the script needs it: the four keys
    hold a flag, the results or [None], the annotated image or [None], and a
    text, and when the flag is set the results and the image are there. On
    such a state the run ends at the last line of the script, or at
    [st.stop()] when the model did not load; no read of the session state
    fails. *)
Theorem run_keeps_session_ok w ss :
  session_ok ss ->
  session_ok (session (run w ss).1) /\
  (run w ss).2 =
    match yolo_load w with
    | Returns _ => Finished
    | Throws _ => Stopped
    end.
Proof.
  intros H. rewrite <- (session_ok_init ss H) in H.
  destruct (run_effect w ss H) as (H1 & H2 & _). auto.
Qed.

(** X9. Starting from an empty session state, after any sequence of runs the
    next run does not crash either: it ends at the last line, or at
    [st.stop()] when the model did not load, and leaves the session state as
    the script needs it. *)
Theorem reruns_never_crash (ws : list (world Model File Image Results)) w :
  let ss := reruns boxes_of upper format_2f ws ∅ in
  session_ok (session (run w ss).1) /\
  (run w ss).2 =
    match yolo_load w with
    | Returns _ => Finished
    | Throws _ => Stopped
    end.
Proof.
  intros ss.
  destruct (run_effect w ss (reruns_ok ws ∅ session_ok_init_empty))
    as (H1 & H2 & _).
  auto.
Qed.

(** X10. Nothing in the script clears the flag: once [analysis_done] is
    [True] it is [True] after every later run, whatever is uploaded and
    whatever fails. *)
Theorem analysis_done_stays (ws : list (world Model File Image Results)) :
  forall ss,
    ss !! "analysis_done" = Some (VBool true) ->
    reruns boxes_of upper format_2f ws ss !! "analysis_done" = Some (VBool true).
Proof.
  induction ws as [|w rest IH]; intros ss H; [exact H|].
  cbn [reruns]. apply IH.
  apply (run_session_rule (fun s => s !! "analysis_done" = Some (VBool true))).
  - rewrite init_session_lookup, H. reflexivity.
  - intros s r Hs. rewrite lookup_insert_ne by congruence. exact Hs.
  - intros s a Hs. rewrite lookup_insert_ne by congruence. exact Hs.
  - intros s Hs. apply lookup_insert_eq.
  - intros s text Hs. rewrite lookup_insert_ne by congruence. exact Hs.
Qed.

(** ** The outcomes of an upload *)

(** X11. With a model, a file that decodes, the button pressed, an inference
    and a plot that succeed, the run stores the new results, the new
    annotated image and the flag, shows the assessment of the new results in
    the same run, stores its report and ends with the footer. *)
Theorem analysis_success w ss (m : Model) (f : File) (img a : Image) (r : Results) :
  yolo_load w = Returns m ->
  uploaded_file w = Some f ->
  image_open w f = Returns img ->
  button_pressed w = true ->
  yolo_infer w m img = Returns r ->
  results_plot w r = Returns a ->
  exists (pg : list widget) (text : string),
    display_results upper format_2f (clock w) (boxes_of r) = Ok (pg, text) /\
    run w ss =
    ({| session :=
          <["report_text" := VStr text]>
            (<["analysis_done" := VBool true]>
               (<["annotated" := VImage a]>
                  (<["results" := VResults r]> (init_session ss))));
        rendered :=
          page_header ++
          [ st_file_uploader "📤 Upload a road surface image" ["jpg"; "jpeg"; "png"];
            shown (st_image "Uploaded Image");
            st_button "🔍 Analyze Road Condition";
            st_spinner "Running intelligent analysis..." ] ++
          (shown <$> pg) ++ page_end |}, Finished).
Proof.
  intros Hm Hf Himg Hb Hr Ha.
  pose proof (display_results_spec upper format_2f (clock w) (boxes_of r)) as E.
  cbv zeta in E. eexists. eexists. split; [exact E|].
  unfold script, load_model, upload_section. rewrite Hm, Hf, Himg, Hb.
  unfold analyze. rewrite Hr, Ha.
  unfold display_section, read, assign, render. cbn [session rendered].
  rewrite lookup_insert_eq. cbn [truthy].
  rewrite (lookup_insert_ne _ "analysis_done" "annotated") by congruence.
  rewrite lookup_insert_eq.
  rewrite (lookup_insert_ne _ "analysis_done" "results") by congruence.
  rewrite (lookup_insert_ne _ "annotated" "results") by congruence.
  rewrite lookup_insert_eq. cbn [first_boxes]. rewrite E.
  cbn [session rendered]. rewrite <- !app_assoc. reflexivity.
Qed.

(** X12. An upload that does not get as far as a result leaves the session
    state exactly as a run without upload does: no file, the button not
    pressed, a file that does not decode, or an inference that fails. *)
Theorem failed_upload_like_no_upload w ss :
  uploaded_file w = None \/
  button_pressed w = false \/
  (exists (f : File) (e : lib_error),
     uploaded_file w = Some f /\ image_open w f = Throws e) \/
  (exists (f : File) (img : Image) (m : Model) (e : lib_error),
     uploaded_file w = Some f /\ image_open w f = Returns img /\
     yolo_load w = Returns m /\ yolo_infer w m img = Throws e) ->
  session (run w ss).1 = session (run (without_upload w) ss).1 /\
  (run w ss).2 = (run (without_upload w) ss).2.
Proof.
  intros H.
  destruct (yolo_load w) as [m|e] eqn:Hload.
  - destruct (run_unfold w ss m Hload) as (-> & -> & _).
    destruct (run_unfold (without_upload w) ss m Hload) as (-> & -> & _).
    apply display_session_only; [|reflexivity].
    unfold upload_section. cbn [uploaded_file without_upload render session].
    destruct (uploaded_file w) as [f|]; [|reflexivity].
    destruct (image_open w f) as [img|[msg|msg]] eqn:Himg; try reflexivity.
    destruct (button_pressed w); [|reflexivity].
    unfold analyze.
    destruct H as [H | [H | [(f' & e & Hf & He) | (f' & img' & m' & e & Hf & Hi & Hm & He)]]];
      try discriminate H.
    + injection Hf as <-. congruence.
    + injection Hf as <-. rewrite Himg in Hi. injection Hi as <-.
      injection Hm as <-. rewrite He. reflexivity.
  - rewrite (run_stopped w ss e Hload).
    rewrite (run_stopped (without_upload w) ss e Hload). auto.
Qed.

(** X13. When the inference succeeds and the plot fails, the new results
    are already stored while the annotated image and the flag are as before:
    after an earlier analysis the page shows the old image beside the
    assessment of the new results. The error is reported on the page. *)
Theorem plot_failure_half_update w ss (m : Model) (f : File) (img : Image)
    (r : Results) (e : lib_error) :
  yolo_load w = Returns m ->
  uploaded_file w = Some f ->
  image_open w f = Returns img ->
  button_pressed w = true ->
  yolo_infer w m img = Returns r ->
  results_plot w r = Throws e ->
  session (run w ss).1 !! "results" = Some (VResults r) /\
  session (run w ss).1 !! "annotated" = init_session ss !! "annotated" /\
  session (run w ss).1 !! "analysis_done" = init_session ss !! "analysis_done" /\
  st_error ("Error during analysis: " +:+ str_of_error e) ∈ rendered (run w ss).1.
Proof.
  intros Hm Hf Himg Hb Hr He.
  destruct (run_unfold w ss m Hm) as (-> & _ & tail & -> & _).
  set (st0 := {| session := init_session ss; rendered := page_header |}).
  assert (session (upload_section w (Some m) st0) =
          <["results" := VResults r]> (init_session ss) /\
          st_error ("Error during analysis: " +:+ str_of_error e)
            ∈ rendered (upload_section w (Some m) st0)) as [Hs Hin].
  { unfold upload_section, analyze. rewrite Hf, Himg, Hb, Hr, He.
    split; [reflexivity|]. unfold render, assign. cbn [rendered].
    rewrite elem_of_app. right. left. }
  destruct (display_section_effect w (upload_section w (Some m) st0))
    as [Hd (pg & ->)].
  assert (forall k : string, k <> "report_text" ->
            session (display w (upload_section w (Some m) st0)).1 !! k =
            (<["results" := VResults r]> (init_session ss)) !! k) as Hk.
  { intros k Nk. destruct Hd as [-> | (text & ->)]; rewrite Hs; [reflexivity|].
    apply lookup_insert_ne. congruence. }
  rewrite !Hk by congruence.
  rewrite lookup_insert_eq, !lookup_insert_ne by congruence.
  repeat split.
  rewrite !elem_of_app. left. left. exact Hin.
Qed.

(** X14. A run shows at most one error message, and never the message
    of the check [model is None] under the button: without a model the
    script has stopped before it gets there. *)
Theorem one_error_per_run w ss :
  (length (List.filter is_error (rendered (run w ss).1)) <= 1)%nat /\
  st_error "Model not loaded." ∉ rendered (run w ss).1.
Proof.
  destruct (yolo_load w) as [m|e] eqn:Hload.
  - destruct (run_unfold w ss m Hload) as (_ & _ & tail & -> & Htail & _).
    set (st0 := {| session := init_session ss; rendered := page_header |}).
    destruct (display_section_effect w (upload_section w (Some m) st0))
      as [_ (pg & ->)].
    destruct (upload_section_effect w (Some m) st0)
      as (extra & -> & Hone & Hnot & _).
    cbn [rendered st0].
    assert (List.filter is_error (shown <$> pg) = []) as Hpg
      by (clear; induction pg as [|x pg IH]; [reflexivity | exact IH]).
    assert (List.filter is_error tail = [] /\ st_error "Model not loaded." ∉ tail)
      as [Ht Hnt].
    { destruct Htail as [-> | ->]; (split; [reflexivity|]);
        unfold page_end; not_this_error. }
    split.
    + rewrite !List.filter_app, !length_app, Hpg, Ht. cbn [length].
      change (List.filter is_error page_header) with (@nil element).
      cbn [length]. lia.
    + rewrite !not_elem_of_app. repeat split.
      * unfold page_header. not_this_error.
      * apply Hnot. discriminate.
      * intros Hin. apply list_elem_of_fmap in Hin.
        destruct Hin as (x & E & _). discriminate E.
      * exact Hnt.
  - rewrite (run_stopped w ss e Hload). cbn [fst rendered]. split.
    + rewrite List.filter_app. reflexivity.
    + rewrite not_elem_of_app. split; [unfold page_header|]; not_this_error.
Qed.

(** X15. When the model does not load, the run reports it and stops: no
    uploader, nothing of an earlier analysis and no footer are shown, and the
    session state is only initialised. *)
Theorem load_failure_stops w ss (e : lib_error) :
  yolo_load w = Throws e ->
  run w ss =
  ({| session := init_session ss;
      rendered := page_header ++
                  [st_error ("Error loading model: " +:+ str_of_error e)] |},
   Stopped) /\
  (forall x : element, x ∈ rendered (run w ss).1 ->
     x ∈ page_header \/ is_error x = true).
Proof.
  intros H. rewrite (run_stopped w ss e H). split; [reflexivity|].
  cbn [fst rendered]. intros x. rewrite elem_of_app, elem_of_cons, elem_of_nil.
  intros [Hx | [-> | []]]; [left; exact Hx | right; reflexivity].
Qed.


End ScriptProperties.

(** ** The properties on the sample runs *)

Lemma sample_session_ok : session_ok sample_session.
Proof.
  exists true, (VResults [mkDetection "manhole" lit_0_55]), (VImage 9%nat), "".
  repeat split; eauto.
Qed.

Lemma init_session_fills_missing_witness :
  init_session sample_session !! "annotated" = Some (VImage 9%nat) /\
  is_Some (init_session (∅ : gmap string (value nat (list Detection))) !! "results") /\
  init_session sample_session !! "user" = sample_session !! "user".
Proof.
  destruct (init_session_fills_missing nat (list Detection) sample_session)
    as (Hkeep & _ & Hother & _).
  destruct (init_session_fills_missing nat (list Detection) ∅)
    as (_ & Hkeys & _).
  split; [apply Hkeep; reflexivity|].
  split.
  - apply Hkeys. refine (bool_decide_unpack (_ ∈ _) _); vm_compute; exact I.
  - apply Hother. refine (bool_decide_unpack (_ ∉ _) _); vm_compute; exact I.
Defined.

Lemma run_keeps_session_ok_witness :
  session_ok (session (run_sample sample_world sample_session).1) /\
  (run_sample sample_world sample_session).2 = Finished.
Proof.
  exact (run_keeps_session_ok _ _ _ _ Some ascii_upper fixed_2f
           sample_world sample_session sample_session_ok).
Defined.

Lemma analysis_done_stays_witness :
  reruns Some ascii_upper fixed_2f
    [sample_world_plot_fails; sample_world_no_model; sample_world_infer_fails]
    sample_session !! "analysis_done" = Some (VBool true).
Proof.
  apply (analysis_done_stays _ _ _ _ Some ascii_upper fixed_2f). reflexivity.
Defined.

Lemma analysis_success_witness :
  exists (pg : list widget) (text : string),
    display_results ascii_upper fixed_2f sample_now (Some sample_boxes) =
      Ok (pg, text) /\
    run_sample sample_world ∅ =
    ({| session :=
          <["report_text" := VStr text]>
            (<["analysis_done" := VBool true]>
               (<["annotated" := VImage 2%nat]>
                  (<["results" := VResults sample_boxes]> (init_session ∅))));
        rendered :=
          page_header ++
          [ st_file_uploader "📤 Upload a road surface image" ["jpg"; "jpeg"; "png"];
            shown (st_image "Uploaded Image");
            st_button "🔍 Analyze Road Condition";
            st_spinner "Running intelligent analysis..." ] ++
          (shown <$> pg) ++ page_end |}, Finished).
Proof.
  exact (analysis_success _ _ _ _ Some ascii_upper fixed_2f sample_world ∅
           tt "road.jpg" 1%nat 2%nat sample_boxes
           eq_refl eq_refl eq_refl eq_refl eq_refl eq_refl).
Defined.

Lemma failed_upload_like_no_upload_witness :
  session (run_sample sample_world_infer_fails sample_session).1 =
    session (run_sample (without_upload sample_world_infer_fails) sample_session).1 /\
  (run_sample sample_world_infer_fails sample_session).2 =
    (run_sample (without_upload sample_world_infer_fails) sample_session).2.
Proof.
  apply (failed_upload_like_no_upload _ _ _ _ Some ascii_upper fixed_2f
           sample_world_infer_fails sample_session).
  right. right. right.
  exists "road.jpg", 1%nat, tt, (OtherException "CUDA out of memory").
  repeat split; reflexivity.
Defined.

Lemma plot_failure_half_update_witness :
  session (run_sample sample_world_plot_fails sample_session).1 !! "results" =
    Some (VResults sample_boxes) /\
  session (run_sample sample_world_plot_fails sample_session).1 !! "annotated" =
    init_session sample_session !! "annotated" /\
  session (run_sample sample_world_plot_fails sample_session).1 !! "analysis_done" =
    init_session sample_session !! "analysis_done" /\
  st_error ("Error during analysis: " +:+ str_of_error (OtherException "cannot plot"))
    ∈ rendered (run_sample sample_world_plot_fails sample_session).1.
Proof.
  exact (plot_failure_half_update _ _ _ _ Some ascii_upper fixed_2f
           sample_world_plot_fails sample_session tt "road.jpg" 1%nat sample_boxes
           (OtherException "cannot plot")
           eq_refl eq_refl eq_refl eq_refl eq_refl eq_refl).
Defined.

Lemma load_failure_stops_witness :
  run_sample sample_world_no_model sample_session =
  ({| session := init_session sample_session;
      rendered := page_header ++
                  [st_error ("Error loading model: " +:+
                             str_of_error (OtherException "best.pt not found"))] |},
   Stopped) /\
  (forall x : element,
     x ∈ rendered (run_sample sample_world_no_model sample_session).1 ->
     x ∈ page_header \/ is_error x = true).
Proof.
  exact (load_failure_stops _ _ _ _ Some ascii_upper fixed_2f
           sample_world_no_model sample_session
           (OtherException "best.pt not found") eq_refl).
Defined.

